(** * WebrtcGonkH264VideoCodec: the H.264 glue between the call engine and
      the hardware codec

    A shallow embedding of
    [dom/media/webrtc/libwebrtcglue/WebrtcGonkH264VideoCodec.cpp]:
    the NAL helpers ([IsParamSets], [ParamSetLength]), the encoder's output
    drain ([EncOutputDrain]), the encoder ([InitEncode], [Encode], [Release],
    [SetRates]) and the decoder ([InitDecode], [Decode], [Release]).

    Bytes are integers in [0, 256); [uint32_t] values are integers reduced
    modulo [2^32]; pointers into a buffer are offsets from its start.  The
    hardware device, the reservation and the frame registry live outside this
    file of the repository: the answers of the device are arguments of the
    functions that call it, and the calls made are returned as a log. *)

From Stdlib Require Import ZArith List Bool Lia.
Import ListNotations.

(** ** Machine integers *)

Definition uint32 (z : Z) : Z := (z mod 2 ^ 32)%Z.

(** ** NAL constants (lines 30-35) *)

Definition kNALStartCode : list Z := [0; 0; 0; 1]%Z.
Definition kNALTypeIDR : Z := 5.
Definition kNALTypeSPS : Z := 7.
Definition kNALTypePPS : Z := 8.

(** [sizeof(kNALStartCode)] *)
Definition sizeof_kNALStartCode : nat := length kNALStartCode.

(** ** The Annex-B scanner *)

(** [starts_with p d]: the bytes at the data pointer are the bytes of [p]. *)
Fixpoint starts_with (p d : list Z) : bool :=
  match p, d with
  | [], _ => true
  | _ :: _, [] => false
  | x :: p', y :: d' => (x =? y)%Z && starts_with p' d'
  end.

(** Offset of the first start code at or after the data pointer. *)
Fixpoint find_start_code (d : list Z) : option nat :=
  match d with
  | [] => None
  | _ :: d' =>
      if starts_with kNALStartCode d then Some 0
      else option_map S (find_start_code d')
  end.

(** What one successful call of the scanner reports: where the NAL unit
    starts (an offset from the data pointer of the call), its size, and how
    far the data pointer has moved when the call returns. *)
Record NextNAL := {
  nalStart : nat;
  nalSize : nat;
  advance : nat
}.

(** Modelled from the spec: [android::getNextNALUnit] of stagefright's
    [avc_utils.h], which this repository only calls.  The buffer is scanned
    left to right with the start-code convention: a reserved 4-byte marker
    followed by a NAL unit.  The NAL unit runs from the byte after the marker
    to the next marker, or to the end of the data when no marker follows
    (the call sites pass [startCodeFollows = true]); the data pointer is left
    on that next marker.  [None] stands for any status other than
    [android::OK]. *)
Definition getNextNALUnit (data : list Z) : option NextNAL :=
  match find_start_code data with
  | None => None
  | Some i =>
      let start := i + sizeof_kNALStartCode in
      let body := skipn start data in
      let n := match find_start_code body with
               | Some j => j
               | None => length body
               end in
      Some {| nalStart := start; nalSize := n; advance := start + n |}
  end.

(** [aData[i]]; the source never checks the index, the model reads 0 past
    the end. *)
Definition byte_at (aData : list Z) (i : nat) : Z := nth i aData 0%Z.

(** [*p & 0x1f] *)
Definition nal_type (b : Z) : Z := Z.land b 31.

(** Lines 38-41.  The source asserts [aSize > sizeof(kNALStartCode)]. *)
Definition IsParamSets (aData : list Z) : bool :=
  (nal_type (byte_at aData sizeof_kNALStartCode) =? kNALTypeSPS)%Z.

(** Lines 44-58: the [while] loop of [ParamSetLength].  [base] is
    [data - aData], [data] the bytes from the data pointer on; each turn
    consumes at least a start code, so the length of the data bounds the
    number of turns. *)
Fixpoint ParamSetLength_loop (turns : nat) (aData : list Z) (base : nat)
    (data : list Z) : nat :=
  match turns with
  | O => length aData
  | S turns' =>
      match getNextNALUnit data with
      | None => length aData
      | Some r =>
          let t := nal_type (byte_at aData (base + nalStart r)) in
          if negb (t =? kNALTypeSPS)%Z && negb (t =? kNALTypePPS)%Z
          then base + nalStart r - sizeof_kNALStartCode
          else ParamSetLength_loop turns' aData (base + advance r)
                 (skipn (advance r) data)
      end
  end.

Definition ParamSetLength (aData : list Z) : nat :=
  ParamSetLength_loop (S (length aData)) aData 0 aData.

(** ** Fragmentation (lines 167-184) *)

Record nal_entry := {
  offset : Z;   (* uint32_t *)
  size : Z      (* uint32_t *)
}.

(** The [while] loop of [SendEncodedDataToCallback] that fills [nals]. *)
Fixpoint nals_loop (turns : nat) (base : nat) (data : list Z)
    : list nal_entry :=
  match turns with
  | O => []
  | S turns' =>
      match getNextNALUnit data with
      | None => []
      | Some r =>
          {| offset := uint32 (Z.of_nat (base + nalStart r));
             size := uint32 (Z.of_nat (nalSize r)) |}
          :: nals_loop turns' (base + advance r) (skipn (advance r) data)
      end
  end.

Definition nals_of (buffer : list Z) : list nal_entry :=
  nals_loop (S (length buffer)) 0 buffer.

(** ** Types shared by the encoder and the decoder *)

(** [webrtc::FrameType], as far as this file uses it. *)
Inductive FrameType := kVideoFrameKey | kVideoFrameDelta.

(** The return codes of [video_error_codes.h] this file uses. *)
Inductive RetCode :=
| WEBRTC_VIDEO_CODEC_OK
| WEBRTC_VIDEO_CODEC_ERROR
| WEBRTC_VIDEO_CODEC_UNINITIALIZED.

(** [webrtc::EncodedImage]: [_buffer] holds the [_length] bytes the image
    points to, [_size] is the capacity. *)
Record EncodedImage := {
  _buffer : list Z;
  _size : nat;
  _frameType : FrameType;
  _encodedWidth : Z;
  _encodedHeight : Z;
  _timeStamp : Z;
  capture_time_ms_ : Z;
  _completeFrame : bool
}.

(** [EncodedFrame] of [WebrtcGonkVideoCodec.h], with the fields this file
    reads and writes. *)
Record EncodedFrame := {
  mWidth : Z;
  mHeight : Z;
  mTimestamp : Z;
  mTimestampUs : Z;
  mRenderTimeMs : Z
}.

(** Modelled from the spec: [OMXCodecReservation], of which this file only
    calls [ReserveOMXCodec] and [ReleaseOMXCodec].  A boolean-like exclusive
    lock over the hardware resource: [held] says whether this instance holds
    it, [released] counts how often the instance has given the hardware
    back. *)
Record OMXCodecReservation := {
  held : bool;
  released : nat
}.

Definition new_OMXCodecReservation : OMXCodecReservation :=
  {| held := false; released := 0 |}.

(** Modelled from the spec: [Reserve() -> bool] acquires exclusive use and
    returns false if another instance already holds the hardware; [granted]
    is the answer of the process-wide arbiter. *)
Definition ReserveOMXCodec (granted : bool) (r : OMXCodecReservation)
    : bool * OMXCodecReservation :=
  if granted then (true, {| held := true; released := released r |})
  else (false, r).

(** Modelled from the spec: [Release()] is idempotent and always safe to
    call, even if [Reserve] was never called or failed. *)
Definition ReleaseOMXCodec (r : OMXCodecReservation) : OMXCodecReservation :=
  if held r then {| held := false; released := S (released r) |} else r.

(** ** EncOutputDrain (lines 60-210) *)

Module EncOutputDrain.

(** [MediaCodec::BUFFER_FLAG_SYNCFRAME] of Android's [MediaCodec.h]. *)
Definition BUFFER_FLAG_SYNCFRAME : Z := 1.

(** One call of [mCallback->OnEncodedImage(unit, &info, &fragmentation)];
    [info] is the same constant in every call. *)
Record Delivery := {
  unit : EncodedImage;
  fragmentation : list nal_entry
}.

(** The members of the drain.  [mCallback] is true when the pointer is not
    null; [mInputFrames] is the member of the base class [CodecOutputDrain],
    the frames queued by the encoder and not yet matched to an output. *)
Record t := {
  mCallback : bool;
  mIsPrevFrameParamSets : bool;
  mParamSets : list Z;
  mInputFrames : list EncodedFrame
}.

(** The constructor (lines 62-66). *)
Definition new (aCallback : bool) : t :=
  {| mCallback := aCallback;
     mIsPrevFrameParamSets := false;
     mParamSets := [];
     mInputFrames := [] |}.

(** What [mOMX->GetNextEncodedFrame] hands back. *)
Record EncodedOutput := {
  rv_failed : bool;
  output : list Z;
  capacity : nat;
  timeUs : Z;
  flags : Z
}.

Section Registry.

(** What [mInputFrames.Pop] returns for a timestamp that is not queued; the
    registry is declared in [WebrtcGonkVideoCodec.h]. *)
Variable absent_frame : EncodedFrame.

(** Modelled from the spec: [PopByTimestamp(timestamp) -> metadata|absent],
    the registry of [CodecOutputDrain]; the source takes an [EncodedFrame]
    from it whether or not the timestamp was queued. *)
Fixpoint Pop (aTimeUs : Z) (frames : list EncodedFrame)
    : EncodedFrame * list EncodedFrame :=
  match frames with
  | [] => (absent_frame, [])
  | f :: rest =>
      if (mTimestampUs f =? aTimeUs)%Z then (f, rest)
      else let (g, rest') := Pop aTimeUs rest in (g, f :: rest')
  end.

(** Modelled from the spec: [Insert(timestamp, metadata)], called as
    [QueueInput] by the encoder. *)
Definition QueueInput (frame : EncodedFrame) (d : t) : t :=
  {| mCallback := mCallback d;
     mIsPrevFrameParamSets := mIsPrevFrameParamSets d;
     mParamSets := mParamSets d;
     mInputFrames := mInputFrames d ++ [frame] |}.

(** Lines 167-203: the part of [SendEncodedDataToCallback] after the
    prepending, which is all the nested call with [false] runs. *)
Definition send_nals (aEncodedImage : EncodedImage) : list Delivery :=
  let nals := nals_of (_buffer aEncodedImage) in
  let num_nals := length nals in
  if 0 <? num_nals then
    [ {| unit := {| _buffer := _buffer aEncodedImage;
                    _size := _size aEncodedImage;
                    _frameType := _frameType aEncodedImage;
                    _encodedWidth := _encodedWidth aEncodedImage;
                    _encodedHeight := _encodedHeight aEncodedImage;
                    _timeStamp := _timeStamp aEncodedImage;
                    capture_time_ms_ := capture_time_ms_ aEncodedImage;
                    _completeFrame := true |};
         fragmentation := nals |} ]
  else [].

(** [prepend]: a copy of the image pointing at the cached parameter sets
    (lines 154-159). *)
Definition prepend_image (aParamSets : list Z) (aEncodedImage : EncodedImage)
    : EncodedImage :=
  {| _buffer := aParamSets;
     _size := _size aEncodedImage;
     _frameType := _frameType aEncodedImage;
     _encodedWidth := _encodedWidth aEncodedImage;
     _encodedHeight := _encodedHeight aEncodedImage;
     _timeStamp := _timeStamp aEncodedImage;
     capture_time_ms_ := capture_time_ms_ aEncodedImage;
     _completeFrame := _completeFrame aEncodedImage |}.

(** Lines 151-204; the result lists the callback invocations in order.  The
    source asserts [mParamSets.Length() > sizeof(kNALStartCode)] before it
    prepends. *)
Definition SendEncodedDataToCallback (d : t) (aEncodedImage : EncodedImage)
    (aPrependParamSets : bool) : list Delivery :=
  (if aPrependParamSets
   then send_nals (prepend_image (mParamSets d) aEncodedImage)
   else [])
  ++ send_nals aEncodedImage.

(** Line 93: [bool isIFrame = (flags & MediaCodec::BUFFER_FLAG_SYNCFRAME)]. *)
Definition isIFrame_of (aFlags : Z) : bool :=
  negb (Z.land aFlags BUFFER_FLAG_SYNCFRAME =? 0)%Z.

(** Lines 105-119: the image handed to [SendEncodedDataToCallback], with
    the metadata of the frame taken from the registry. *)
Definition encoded_image (o : EncodedOutput) (input_frame : EncodedFrame)
    : EncodedImage :=
  {| _buffer := output o;
     _size := capacity o;
     _frameType := if IsParamSets (output o) || isIFrame_of (flags o)
                   then kVideoFrameKey else kVideoFrameDelta;
     _encodedWidth := mWidth input_frame;
     _encodedHeight := mHeight input_frame;
     _timeStamp := mTimestamp input_frame;
     capture_time_ms_ := mRenderTimeMs input_frame;
     _completeFrame := true |}.

(** Lines 69-145: one turn of the drain loop, given what the device hands
    back.  Returns the value of [DrainOutput], the drain afterwards and the
    callback invocations made. *)
Definition DrainOutput (d : t) (o : EncodedOutput)
    : bool * t * list Delivery :=
  if rv_failed o then (true, d, [])
  else if (length (output o) =? 0)%nat then (false, d, [])
  else
    let isParamSets := IsParamSets (output o) in
    let isIFrame := isIFrame_of (flags o) in
    if mCallback d then
      let (input_frame, frames) := Pop (timeUs o) (mInputFrames d) in
      let encoded := encoded_image o input_frame in
      let sent :=
        SendEncodedDataToCallback d encoded
          (isIFrame && negb (mIsPrevFrameParamSets d) && negb isParamSets) in
      (negb isParamSets,
       {| mCallback := mCallback d;
          mIsPrevFrameParamSets := isParamSets && negb isIFrame;
          mParamSets := if isParamSets
                        then firstn (ParamSetLength (output o)) (output o)
                        else mParamSets d;
          mInputFrames := frames |},
       sent)
    else (negb isParamSets, d, []).

End Registry.

End EncOutputDrain.

(** ** WebrtcGonkH264VideoEncoder (lines 212-541) *)

Module WebrtcGonkH264VideoEncoder.

(** The calls made on the device [mOMX]. *)
Inductive OMXCall :=
| ConfigureDirect (width height frame_rate bitrate : Z)
| RequestIDRFrame
| OMXEncode (width height timestampUs : Z)
| SetBitrate (kbps : Z).

(** The members.  [mOMX] and [mCallback] are true when the pointer is not
    null; [mLastIDRTime] is [None] for a null [TimeStamp], else the time in
    milliseconds. *)
Record t := {
  mOMX : bool;
  mCallback : bool;
  mWidth : Z;
  mHeight : Z;
  mFrameRate : Z;
  mBitRateKbps : Z;
  mBitRateAtLastIDR : Z;
  mLastIDRTime : option Z;
  mOMXConfigured : bool;
  mOMXReconfigure : bool;
  mReservation : OMXCodecReservation;
  mOutputDrain : option EncOutputDrain.t
}.

(** The constructor (lines 213-227). *)
Definition new : t :=
  {| mOMX := false; mCallback := false;
     mWidth := 0; mHeight := 0; mFrameRate := 0; mBitRateKbps := 0;
     mBitRateAtLastIDR := 0; mLastIDRTime := None;
     mOMXConfigured := false; mOMXReconfigure := false;
     mReservation := new_OMXCodecReservation;
     mOutputDrain := None |}.

(** The fields of [webrtc::VideoCodec] that [InitEncode] reads. *)
Record VideoCodec := {
  width : Z;
  height : Z;
  maxFramerate : Z;
  startBitrate : Z
}.

(** Lines 229-260.  [created]: [CreateAVCEncoder] returned an encoder;
    [granted]: the arbiter grants the hardware. *)
Definition InitEncode (e : t) (aCodecSettings : VideoCodec)
    (created granted : bool) : RetCode * t :=
  if negb (mOMX e) && negb created then (WEBRTC_VIDEO_CODEC_ERROR, e)
  else
    let (ok, r) := ReserveOMXCodec granted (mReservation e) in
    if negb ok then
      (WEBRTC_VIDEO_CODEC_ERROR,
       {| mOMX := false; mCallback := mCallback e;
          mWidth := mWidth e; mHeight := mHeight e;
          mFrameRate := mFrameRate e; mBitRateKbps := mBitRateKbps e;
          mBitRateAtLastIDR := mBitRateAtLastIDR e;
          mLastIDRTime := mLastIDRTime e;
          mOMXConfigured := mOMXConfigured e;
          mOMXReconfigure := mOMXReconfigure e;
          mReservation := r; mOutputDrain := mOutputDrain e |})
    else
      (WEBRTC_VIDEO_CODEC_OK,
       {| mOMX := true; mCallback := mCallback e;
          mWidth := width aCodecSettings; mHeight := height aCodecSettings;
          mFrameRate := maxFramerate aCodecSettings;
          mBitRateKbps := startBitrate aCodecSettings;
          mBitRateAtLastIDR := mBitRateAtLastIDR e;
          mLastIDRTime := mLastIDRTime e;
          mOMXConfigured := mOMXConfigured e;
          mOMXReconfigure := mOMXReconfigure e;
          mReservation := r; mOutputDrain := mOutputDrain e |}).

(** Lines 442-449. *)
Definition RegisterEncodeCompleteCallback (e : t) (aCallback : bool)
    : RetCode * t :=
  (WEBRTC_VIDEO_CODEC_OK,
   {| mOMX := mOMX e; mCallback := aCallback;
      mWidth := mWidth e; mHeight := mHeight e;
      mFrameRate := mFrameRate e; mBitRateKbps := mBitRateKbps e;
      mBitRateAtLastIDR := mBitRateAtLastIDR e;
      mLastIDRTime := mLastIDRTime e;
      mOMXConfigured := mOMXConfigured e;
      mOMXReconfigure := mOMXReconfigure e;
      mReservation := mReservation e; mOutputDrain := mOutputDrain e |}).

(** Lines 451-467.  [mOutputDrain->Stop()] joins the drain thread; the
    drain is gone afterwards. *)
Definition Release (e : t) : RetCode * t :=
  let hadOMX := mOMX e in
  (WEBRTC_VIDEO_CODEC_OK,
   {| mOMX := false; mCallback := mCallback e;
      mWidth := mWidth e; mHeight := mHeight e;
      mFrameRate := mFrameRate e; mBitRateKbps := mBitRateKbps e;
      mBitRateAtLastIDR := mBitRateAtLastIDR e;
      mLastIDRTime := mLastIDRTime e;
      mOMXConfigured := false;
      mOMXReconfigure := mOMXReconfigure e;
      mReservation := if hadOMX then ReleaseOMXCodec (mReservation e)
                      else mReservation e;
      mOutputDrain := None |}).

(** The destructor (lines 469-473) calls [Release]. *)
Definition destroy (e : t) : t := snd (Release e).

(** Lines 364-376: the condition under which a change of bitrate asks for
    an IDR, on the [uint32_t] members and the [int32_t] elapsed time. *)
Definition bitrate_change_needs_IDR (aBitRateKbps aBitRateAtLastIDR
    timeSinceLastIDR : Z) : bool :=
  ((3000 <? timeSinceLastIDR)
   || (aBitRateKbps <? uint32 (aBitRateAtLastIDR * 8) / 10)
   || ((timeSinceLastIDR <? 300)
       && (aBitRateKbps <? uint32 (aBitRateAtLastIDR * 9) / 10))
   || ((timeSinceLastIDR <? 1000)
       && (aBitRateKbps <? uint32 (aBitRateAtLastIDR * 97) / 100))
   || ((1000 <=? timeSinceLastIDR) && (aBitRateKbps <? aBitRateAtLastIDR))
   || (uint32 (aBitRateAtLastIDR * 15) / 10 <? aBitRateKbps)
   || ((timeSinceLastIDR <? 500)
       && (uint32 (aBitRateAtLastIDR * 13) / 10 <? aBitRateKbps))
   || ((timeSinceLastIDR <? 1000)
       && (uint32 (aBitRateAtLastIDR * 11) / 10 <? aBitRateKbps))
   || ((1000 <=? timeSinceLastIDR)
       && (aBitRateAtLastIDR <? aBitRateKbps)))%Z.

Definition with_IDR_state (e : t) (aLastIDRTime : option Z)
    (aBitRateAtLastIDR : Z) : t :=
  {| mOMX := mOMX e; mCallback := mCallback e;
     mWidth := mWidth e; mHeight := mHeight e;
     mFrameRate := mFrameRate e; mBitRateKbps := mBitRateKbps e;
     mBitRateAtLastIDR := aBitRateAtLastIDR;
     mLastIDRTime := aLastIDRTime;
     mOMXConfigured := mOMXConfigured e;
     mOMXReconfigure := mOMXReconfigure e;
     mReservation := mReservation e; mOutputDrain := mOutputDrain e |}.

(** [aFrameTypes && aFrameTypes->size() &&
     (( *aFrameTypes)[0] == webrtc::kVideoFrameKey)] *)
Definition key_frame_requested (aFrameTypes : option (list FrameType))
    : bool :=
  match aFrameTypes with
  | Some (kVideoFrameKey :: _) => true
  | _ => false
  end.

Section Build.

(** The two preprocessor symbols the file tests. *)
Variable OMX_IDR_NEEDED_FOR_BITRATE : bool.
Variable TEST_OMX_FRAMERATE_CHANGES : bool.

(** Lines 343-387 of [Encode]: the keyframe requests.  [now] is
    [TimeStamp::Now()] in milliseconds. *)
Definition Encode_keyframe (e : t) (aFrameTypes : option (list FrameType))
    (now : Z) : t * list OMXCall :=
  if key_frame_requested aFrameTypes then
    (if OMX_IDR_NEEDED_FOR_BITRATE
     then with_IDR_state e (Some now) (mBitRateKbps e) else e,
     [RequestIDRFrame])
  else if OMX_IDR_NEEDED_FOR_BITRATE
          && negb (mBitRateKbps e =? mBitRateAtLastIDR e)%Z then
    let last := match mLastIDRTime e with
                | None => now   (* paranoia *)
                | Some l => l
                end in
    let timeSinceLastIDR := (now - last)%Z in
    if bitrate_change_needs_IDR (mBitRateKbps e) (mBitRateAtLastIDR e)
         timeSinceLastIDR
    then (with_IDR_state e (Some now) (mBitRateKbps e), [RequestIDRFrame])
    else (with_IDR_state e (Some last) (mBitRateAtLastIDR e), [])
  else (e, []).

(** What [Encode] reads of the picture. *)
Record VideoFrame := {
  frame_width : Z;       (* int *)
  frame_height : Z;      (* int *)
  timestamp : Z;         (* uint32_t *)
  render_time_ms : Z
}.

(** The answers of the outside world to one [Encode]: whether
    [ConfigureDirect] and [mOMX->Encode] succeed, the clock after the
    configuration and at the keyframe decision, and what
    [mUnwrapper.Unwrap] returns for the timestamp. *)
Record EncodeEnv := {
  configure_failed : bool;
  now_configured : Z;
  now_keyframe : Z;
  unwrapped : Z;
  encode_ok : bool
}.

(** Lines 274-279: a change of geometry asks for a reconfiguration. *)
Definition Encode_geometry (e : t) (f : VideoFrame) : t :=
  if (frame_width f <? 0)%Z || negb (uint32 (frame_width f) =? mWidth e)%Z
     || (frame_height f <? 0)%Z
     || negb (uint32 (frame_height f) =? mHeight e)%Z
  then
    {| mOMX := mOMX e; mCallback := mCallback e;
       mWidth := uint32 (frame_width f); mHeight := uint32 (frame_height f);
       mFrameRate := mFrameRate e; mBitRateKbps := mBitRateKbps e;
       mBitRateAtLastIDR := mBitRateAtLastIDR e;
       mLastIDRTime := mLastIDRTime e;
       mOMXConfigured := mOMXConfigured e;
       mOMXReconfigure := true;
       mReservation := mReservation e; mOutputDrain := mOutputDrain e |}
  else e.

Definition with_configuration (e : t) (configured reconfigure : bool) : t :=
  {| mOMX := mOMX e; mCallback := mCallback e;
     mWidth := mWidth e; mHeight := mHeight e;
     mFrameRate := mFrameRate e; mBitRateKbps := mBitRateKbps e;
     mBitRateAtLastIDR := mBitRateAtLastIDR e;
     mLastIDRTime := mLastIDRTime e;
     mOMXConfigured := configured;
     mOMXReconfigure := reconfigure;
     mReservation := mReservation e; mOutputDrain := mOutputDrain e |}.

(** Lines 281-341: the (re)configuration.  [None] when [ConfigureDirect]
    fails and [Encode] returns the error. *)
Definition Encode_configure (e : t) (env : EncodeEnv)
    : option t * list OMXCall :=
  if negb (mOMXConfigured e) || mOMXReconfigure e then
    let call := ConfigureDirect (mWidth e) (mHeight e) (mFrameRate e)
                  (uint32 (mBitRateKbps e * 1000)) in
    if configure_failed env then (None, [call])
    else
      let e' := with_configuration e true false in
      (Some (if OMX_IDR_NEEDED_FOR_BITRATE
             then with_IDR_state e' (Some (now_configured env))
                    (mBitRateKbps e')
             else e'),
       [call])
  else (Some e, []).

(** Lines 417-439: the picture goes to the device and, when the device
    takes it, into the registry of the drain, which is started on the
    first picture. *)
Definition Encode_submit (e : t) (f : VideoFrame) (env : EncodeEnv)
    : RetCode * t * list OMXCall :=
  let timestampUs := Z.quot (unwrapped env * 1000) 90 in
  let call := OMXEncode (frame_width f) (frame_height f) timestampUs in
  if encode_ok env then
    let drain := match mOutputDrain e with
                 | None => EncOutputDrain.new (mCallback e)
                 | Some d => d
                 end in
    let frame := Build_EncodedFrame (mWidth e) (mHeight e) (timestamp f)
                   timestampUs (render_time_ms f) in
    (WEBRTC_VIDEO_CODEC_OK,
     {| mOMX := mOMX e; mCallback := mCallback e;
        mWidth := mWidth e; mHeight := mHeight e;
        mFrameRate := mFrameRate e; mBitRateKbps := mBitRateKbps e;
        mBitRateAtLastIDR := mBitRateAtLastIDR e;
        mLastIDRTime := mLastIDRTime e;
        mOMXConfigured := mOMXConfigured e;
        mOMXReconfigure := mOMXReconfigure e;
        mReservation := mReservation e;
        mOutputDrain := Some (EncOutputDrain.QueueInput frame drain) |},
     [call])
  else (WEBRTC_VIDEO_CODEC_ERROR, e, [call]).

(** Lines 262-440. *)
Definition Encode (e : t) (aInputImage : VideoFrame)
    (aFrameTypes : option (list FrameType)) (env : EncodeEnv)
    : RetCode * t * list OMXCall :=
  if negb (mOMX e) then (WEBRTC_VIDEO_CODEC_ERROR, e, [])
  else
    let e1 := Encode_geometry e aInputImage in
    match Encode_configure e1 env with
    | (None, calls) =>
        (WEBRTC_VIDEO_CODEC_ERROR, with_configuration e1 false false, calls)
    | (Some e2, calls) =>
        let (e3, calls') := Encode_keyframe e2 aFrameTypes (now_keyframe env) in
        let '(rc, e4, calls'') := Encode_submit e3 aInputImage env in
        (rc, e4, calls ++ calls' ++ calls'')
    end.

(** Lines 509-535 of [SetRates]: the new [mFrameRate] and whether a
    reconfiguration is asked for. *)
Definition SetRates_frame_rate (aFrameRateNow aFrameRate : Z) : Z * bool :=
  if TEST_OMX_FRAMERATE_CHANGES then
    if negb (aFrameRate =? aFrameRateNow)%Z then (aFrameRate, true)
    else (aFrameRateNow, false)
  else if ((aFrameRateNow <? aFrameRate)
           || (aFrameRate <? aFrameRateNow / 2))%Z then
    let old_rate := aFrameRateNow in
    let ladder := if (15 <=? aFrameRate)%Z then 30%Z
                  else if (10 <=? aFrameRate)%Z then 20%Z
                  else if (8 <=? aFrameRate)%Z then 15%Z
                  else 10%Z in
    let rate := if (ladder <? aFrameRate)%Z then aFrameRate else ladder in
    (rate, negb (old_rate =? rate)%Z)
  else (aFrameRateNow, false).

(** Lines 489-541.  [set_bitrate_failed]: [NS_FAILED] of what
    [mOMX->SetBitrate] returns. *)
Definition SetRates (e : t) (aBitRateKbps aFrameRate : Z)
    (set_bitrate_failed : bool) : RetCode * t * list OMXCall :=
  if negb (mOMX e) then (WEBRTC_VIDEO_CODEC_UNINITIALIZED, e, [])
  else
    let (rate, reconfigure) :=
      SetRates_frame_rate (mFrameRate e) aFrameRate in
    (if set_bitrate_failed then WEBRTC_VIDEO_CODEC_OK
     else WEBRTC_VIDEO_CODEC_ERROR,
     {| mOMX := mOMX e; mCallback := mCallback e;
        mWidth := mWidth e; mHeight := mHeight e;
        mFrameRate := rate; mBitRateKbps := aBitRateKbps;
        mBitRateAtLastIDR := mBitRateAtLastIDR e;
        mLastIDRTime := mLastIDRTime e;
        mOMXConfigured := mOMXConfigured e;
        mOMXReconfigure := reconfigure || mOMXReconfigure e;
        mReservation := mReservation e; mOutputDrain := mOutputDrain e |},
     [SetBitrate aBitRateKbps]).

End Build.

End WebrtcGonkH264VideoEncoder.

(** ** WebrtcGonkH264VideoDecoder (lines 543-628) *)

Module WebrtcGonkH264VideoDecoder.

(** One call of [mDecoder->FillInput(image, isCodecConfig, renderTimeMs)]:
    a submission to the device. *)
Record FillInputCall := {
  image : EncodedImage;
  isCodecConfig : bool;
  renderTimeMs : Z
}.

(** The members; [mDecoder] is true when the pointer is not null. *)
Record t := {
  mCodecConfigSubmitted : bool;
  mDecoder : bool;
  mReservation : OMXCodecReservation
}.

(** The constructor (lines 544-548). *)
Definition new : t :=
  {| mCodecConfigSubmitted := false;
     mDecoder := false;
     mReservation := new_OMXCodecReservation |}.

(** Lines 550-566.  [granted]: the arbiter grants the hardware;
    [configured]: [ConfigureWithPicDimensions] returned [android::OK]. *)
Definition InitDecode (d : t) (granted configured : bool) : RetCode * t :=
  let (ok, r) := ReserveOMXCodec granted (mReservation d) in
  if negb ok then
    (WEBRTC_VIDEO_CODEC_ERROR,
     {| mCodecConfigSubmitted := mCodecConfigSubmitted d;
        mDecoder := mDecoder d; mReservation := r |})
  else
    (if configured then WEBRTC_VIDEO_CODEC_OK else WEBRTC_VIDEO_CODEC_ERROR,
     {| mCodecConfigSubmitted := mCodecConfigSubmitted d;
        mDecoder := configured; mReservation := r |}).

(** The answers of the device to the two [FillInput] calls of one
    [Decode]: whether each returned [android::OK]. *)
Record DecodeEnv := {
  config_accepted : bool;
  data_accepted : bool
}.

Section Extraction.

(** [android::MakeAVCCodecSpecificData] of stagefright, applied to the
    bytes of the access unit: the codec-configuration record, or [None]
    for a null result. *)
Variable MakeAVCCodecSpecificData : list Z -> option (list Z).

(** Lines 568-605.  An image whose [_buffer] is null holds no bytes.  The
    result lists the submissions in order. *)
Definition Decode (d : t) (aInputImage : EncodedImage) (aRenderTimeMs : Z)
    (env : DecodeEnv) : RetCode * t * list FillInputCall :=
  if (length (_buffer aInputImage) =? 0)%nat
  then (WEBRTC_VIDEO_CODEC_ERROR, d, [])
  else
    let data := {| image := aInputImage; isCodecConfig := false;
                   renderTimeMs := aRenderTimeMs |} in
    let finish (d' : t) (calls : list FillInputCall) :=
      (if data_accepted env then WEBRTC_VIDEO_CODEC_OK
       else WEBRTC_VIDEO_CODEC_ERROR,
       d', calls ++ [data]) in
    if negb (mCodecConfigSubmitted d) then
      match MakeAVCCodecSpecificData (_buffer aInputImage) with
      | None => (WEBRTC_VIDEO_CODEC_ERROR, d, [])
      | Some csd =>
          let codecConfig :=
            {| _buffer := csd;
               _size := length csd;
               _frameType := _frameType aInputImage;
               _encodedWidth := _encodedWidth aInputImage;
               _encodedHeight := _encodedHeight aInputImage;
               _timeStamp := _timeStamp aInputImage;
               capture_time_ms_ := capture_time_ms_ aInputImage;
               _completeFrame := _completeFrame aInputImage |} in
          let config := {| image := codecConfig; isCodecConfig := true;
                           renderTimeMs := aRenderTimeMs |} in
          if negb (config_accepted env)
          then (WEBRTC_VIDEO_CODEC_ERROR, d, [config])
          else
            finish {| mCodecConfigSubmitted := true;
                      mDecoder := mDecoder d;
                      mReservation := mReservation d |} [config]
      end
    else finish d [].

End Extraction.

(** Lines 616-623. *)
Definition Release (d : t) : RetCode * t :=
  (WEBRTC_VIDEO_CODEC_OK,
   {| mCodecConfigSubmitted := false;
      mDecoder := false;
      mReservation := ReleaseOMXCodec (mReservation d) |}).

(** The destructor (lines 625-628) calls [Release]. *)
Definition destroy (d : t) : t := snd (Release d).

End WebrtcGonkH264VideoDecoder.

(** ** What the specification says of a buffer

    The definitions below follow the words of the specification, not the
    loops of the source; the theorems compare the two. *)

(** The offsets at which the 4-byte marker occurs, in ascending order;
    [base] is the offset of the first byte of [d]. *)
Fixpoint start_code_offsets (base : nat) (d : list Z) : list nat :=
  match d with
  | [] => []
  | _ :: d' =>
      if starts_with kNALStartCode d
      then base :: start_code_offsets (S base) d'
      else start_code_offsets (S base) d'
  end.

(** The start-code-delimited NAL units of a buffer of [len] bytes, as
    (offset, size) pairs: each runs from the byte after its marker to the
    next marker, or to the end of the buffer after the last marker. *)
Fixpoint delimited_nals (marks : list nat) (len : nat) : list (nat * nat) :=
  match marks with
  | [] => []
  | m :: rest =>
      (m + sizeof_kNALStartCode, hd len rest - (m + sizeof_kNALStartCode))
      :: delimited_nals rest len
  end.

Definition spec_nals (buffer : list Z) : list (nat * nat) :=
  delimited_nals (start_code_offsets 0 buffer) (length buffer).

Definition entry_of (u : nat * nat) : nal_entry :=
  {| offset := Z.of_nat (fst u); size := Z.of_nat (snd u) |}.

(** The NAL unit behind the marker at offset [m] is an SPS or a PPS. *)
Definition is_SPS_or_PPS (aData : list Z) (m : nat) : bool :=
  let t := nal_type (byte_at aData (m + sizeof_kNALStartCode)) in
  ((t =? kNALTypeSPS) || (t =? kNALTypePPS))%Z.

(** The leading span of the buffer up to, but not including, the start code
    of the first NAL unit that is neither SPS nor PPS, or the whole buffer
    if none exists. *)
Definition spec_ParamSetBlob (aData : list Z) : list Z :=
  match find (fun m => negb (is_SPS_or_PPS aData m))
             (start_code_offsets 0 aData) with
  | Some m => firstn m aData
  | None => aData
  end.

(** Consecutive spans are separated by exactly one marker: ascending
    offsets, no overlap, nothing but the marker left out between two. *)
Fixpoint marker_between (es : list nal_entry) : Prop :=
  match es with
  | e1 :: ((e2 :: _) as rest) =>
      ((0 <= size e1)%Z
       /\ (offset e1 + size e1 + Z.of_nat sizeof_kNALStartCode
           = offset e2)%Z)
      /\ marker_between rest
  | _ => True
  end.

(** Markers at or after [lo], each wholly inside the first [hi] bytes and
    clear of the one before. *)
Inductive spaced (hi : nat) : nat -> list nat -> Prop :=
| spaced_nil (lo : nat) : spaced hi lo []
| spaced_cons (lo m : nat) (ms : list nat) :
    lo <= m -> m + 4 <= hi -> spaced hi (m + 4) ms -> spaced hi lo (m :: ms).

(** An Annex-B byte stream: every NAL unit behind a start code. *)
Definition annexb (nals : list (list Z)) : list Z :=
  flat_map (fun payload => kNALStartCode ++ payload) nals.

(** The bytes of the buffer that an offset/size pair spans. *)
Definition span_bytes (buffer : list Z) (e : nal_entry) : list Z :=
  firstn (Z.to_nat (size e)) (skipn (Z.to_nat (offset e)) buffer).

(** The pairs of the NAL units of [annexb nals] when its first byte is at
    offset [base]. *)
Fixpoint annexb_entries (base : nat) (nals : list (list Z))
    : list nal_entry :=
  match nals with
  | [] => []
  | payload :: rest =>
      {| offset := Z.of_nat (base + sizeof_kNALStartCode);
         size := Z.of_nat (length payload) |}
      :: annexb_entries (base + sizeof_kNALStartCode + length payload) rest
  end.

(** ** Sample data *)

(** SPS, PPS and an IDR slice in one buffer. *)
Definition sample_sps_pps_idr : list Z :=
  [0; 0; 0; 1; 103; 66; 0; 0; 0; 1; 104; 206; 0; 0; 0; 1; 101; 136; 132]%Z.

(** SPS and PPS alone. *)
Definition sample_sps_pps : list Z :=
  [0; 0; 0; 1; 103; 66; 0; 0; 0; 1; 104; 206]%Z.

(** An IDR slice alone. *)
Definition sample_idr : list Z := [0; 0; 0; 1; 101; 136; 132]%Z.

(** A buffer that starts with a PPS. *)
Definition sample_pps_first : list Z := [0; 0; 0; 1; 104; 206]%Z.

Definition sample_frame : EncodedFrame :=
  {| mWidth := 640; mHeight := 480; mTimestamp := 90000;
     mTimestampUs := 1000000; mRenderTimeMs := 1000 |}.

Definition no_frame : EncodedFrame :=
  {| mWidth := 0; mHeight := 0; mTimestamp := 0;
     mTimestampUs := 0; mRenderTimeMs := 0 |}.

Definition sample_image (buffer : list Z) : EncodedImage :=
  {| _buffer := buffer; _size := length buffer;
     _frameType := kVideoFrameKey;
     _encodedWidth := 640; _encodedHeight := 480;
     _timeStamp := 90000; capture_time_ms_ := 1000;
     _completeFrame := true |}.

(** A drained output: the device succeeded and handed back bytes. *)
Definition sample_output (buffer : list Z) (aTimeUs aFlags : Z)
    : EncOutputDrain.EncodedOutput :=
  {| EncOutputDrain.rv_failed := false;
     EncOutputDrain.output := buffer;
     EncOutputDrain.capacity := length buffer;
     EncOutputDrain.timeUs := aTimeUs;
     EncOutputDrain.flags := aFlags |}.

(** A drain with a callback and the given cache and registry. *)
Definition sample_drain (prev : bool) (cache : list Z)
    (frames : list EncodedFrame) : EncOutputDrain.t :=
  {| EncOutputDrain.mCallback := true;
     EncOutputDrain.mIsPrevFrameParamSets := prev;
     EncOutputDrain.mParamSets := cache;
     EncOutputDrain.mInputFrames := frames |}.

(** ** What a delivery carries besides the metadata of the input frame *)

Definition payload_of (x : EncOutputDrain.Delivery)
    : list Z * FrameType * list nal_entry :=
  (_buffer (EncOutputDrain.unit x), _frameType (EncOutputDrain.unit x),
   EncOutputDrain.fragmentation x).

(** The drain with another registry. *)
Definition with_frames (d : EncOutputDrain.t) (frames : list EncodedFrame)
    : EncOutputDrain.t :=
  {| EncOutputDrain.mCallback := EncOutputDrain.mCallback d;
     EncOutputDrain.mIsPrevFrameParamSets :=
       EncOutputDrain.mIsPrevFrameParamSets d;
     EncOutputDrain.mParamSets := EncOutputDrain.mParamSets d;
     EncOutputDrain.mInputFrames := frames |}.

(** ** The frame-rate ladder, in the words of the specification *)

(** The nearest rate of the ladder 10/15/20/30 at or above the requested
    value (30 when the request is above the ladder). *)
Definition nearest_ladder_rate_at_or_above (aFrameRate : Z) : Z :=
  if (aFrameRate <=? 10)%Z then 10%Z
  else if (aFrameRate <=? 15)%Z then 15%Z
  else if (aFrameRate <=? 20)%Z then 20%Z
  else 30%Z.

(** ** Lifetimes *)

(** The calls between [InitEncode] and [Release]. *)
Inductive EncoderCall :=
| CallEncode (aInputImage : WebrtcGonkH264VideoEncoder.VideoFrame)
    (aFrameTypes : option (list FrameType))
    (env : WebrtcGonkH264VideoEncoder.EncodeEnv)
| CallSetRates (aBitRateKbps aFrameRate : Z) (set_bitrate_failed : bool)
| CallRegisterEncodeCompleteCallback (aCallback : bool).

Definition encoder_call (idr test : bool) (e : WebrtcGonkH264VideoEncoder.t)
    (c : EncoderCall) : WebrtcGonkH264VideoEncoder.t :=
  match c with
  | CallEncode f ft env =>
      snd (fst (WebrtcGonkH264VideoEncoder.Encode idr e f ft env))
  | CallSetRates b r failed =>
      snd (fst (WebrtcGonkH264VideoEncoder.SetRates test e b r failed))
  | CallRegisterEncodeCompleteCallback cb =>
      snd (WebrtcGonkH264VideoEncoder.RegisterEncodeCompleteCallback e cb)
  end.

Definition encoder_run (idr test : bool) (calls : list EncoderCall)
    (e : WebrtcGonkH264VideoEncoder.t) : WebrtcGonkH264VideoEncoder.t :=
  fold_left (encoder_call idr test) calls e.

(** The [Decode] calls between [InitDecode] and [Release]. *)
Record DecoderCall := {
  call_image : EncodedImage;
  call_render_time : Z;
  call_env : WebrtcGonkH264VideoDecoder.DecodeEnv
}.

Definition decoder_call (extract : list Z -> option (list Z))
    (d : WebrtcGonkH264VideoDecoder.t) (c : DecoderCall)
    : WebrtcGonkH264VideoDecoder.t :=
  snd (fst (WebrtcGonkH264VideoDecoder.Decode extract d (call_image c)
              (call_render_time c) (call_env c))).

Definition decoder_run (extract : list Z -> option (list Z))
    (calls : list DecoderCall) (d : WebrtcGonkH264VideoDecoder.t)
    : WebrtcGonkH264VideoDecoder.t :=
  fold_left (decoder_call extract) calls d.

(** An initialised encoder with the given rates and keyframe budget. *)
Definition sample_encoder (aFrameRate aBitRateKbps aBitRateAtLastIDR : Z)
    (aLastIDRTime : option Z) : WebrtcGonkH264VideoEncoder.t :=
  {| WebrtcGonkH264VideoEncoder.mOMX := true;
     WebrtcGonkH264VideoEncoder.mCallback := true;
     WebrtcGonkH264VideoEncoder.mWidth := 640;
     WebrtcGonkH264VideoEncoder.mHeight := 480;
     WebrtcGonkH264VideoEncoder.mFrameRate := aFrameRate;
     WebrtcGonkH264VideoEncoder.mBitRateKbps := aBitRateKbps;
     WebrtcGonkH264VideoEncoder.mBitRateAtLastIDR := aBitRateAtLastIDR;
     WebrtcGonkH264VideoEncoder.mLastIDRTime := aLastIDRTime;
     WebrtcGonkH264VideoEncoder.mOMXConfigured := true;
     WebrtcGonkH264VideoEncoder.mOMXReconfigure := false;
     WebrtcGonkH264VideoEncoder.mReservation :=
       {| held := true; released := 0 |};
     WebrtcGonkH264VideoEncoder.mOutputDrain := None |}.

(** A delta slice alone. *)
Definition sample_delta : list Z := [0; 0; 0; 1; 65; 154; 2]%Z.

(** An extraction that finds a configuration only in an access unit that
    opens with an SPS. *)
Definition sample_extract (au : list Z) : option (list Z) :=
  if IsParamSets au then Some [1; 66; 0; 30]%Z else None.

(** A decoder after a successful [InitDecode]. *)
Definition sample_decoder : WebrtcGonkH264VideoDecoder.t :=
  snd (WebrtcGonkH264VideoDecoder.InitDecode WebrtcGonkH264VideoDecoder.new
         true true).

(** * ShapeProperty.h: flags and slot of a property in the shape tree

    A shallow embedding of [js/src/vm/ShapeProperty.h].  A set of
    [ShapePropertyFlag]s is its raw [uint8_t], a [ShapeProperty] is its
    [uint32_t] member [slotAndFlags_]. *)

(** Lines 24-25; [Bit(24)] is [1 << 24]. *)
Definition SHAPE_INVALID_SLOT : Z := 2 ^ 24 - 1.
Definition SHAPE_MAXIMUM_SLOT : Z := 2 ^ 24 - 2.

Module ShapePropertyFlag.

(** Lines 28-47. *)
Definition Configurable : Z := Z.shiftl 1 0.
Definition Enumerable : Z := Z.shiftl 1 1.
Definition Writable : Z := Z.shiftl 1 2.
Definition AccessorProperty : Z := Z.shiftl 1 3.
Definition CustomDataProperty : Z := Z.shiftl 1 4.

End ShapePropertyFlag.

Module ShapePropertyFlags.

(** The raw bits of the set, a [uint8_t]. *)
Definition t := Z.

(** [EnumFlags::hasFlag] of [util/EnumFlags.h]: the bit of the flag is set
    in the raw value. *)
Definition hasFlag (flags : t) (flag : Z) : bool :=
  negb (Z.land flags flag =? 0)%Z.

(** [EnumFlags::toRaw]. *)
Definition toRaw (flags : t) : Z := flags.

(** Lines 56-58. *)
Definition fromRaw (flags : Z) : t := flags.

(** Lines 84-86: the set built from three flags. *)
Definition defaultDataPropFlags : t :=
  Z.lor ShapePropertyFlag.Configurable
    (Z.lor ShapePropertyFlag.Enumerable ShapePropertyFlag.Writable).

(** Lines 60-61. *)
Definition configurable (flags : t) : bool :=
  hasFlag flags ShapePropertyFlag.Configurable.
Definition enumerable (flags : t) : bool :=
  hasFlag flags ShapePropertyFlag.Enumerable.

(** Lines 72-77. *)
Definition isAccessorProperty (flags : t) : bool :=
  hasFlag flags ShapePropertyFlag.AccessorProperty.
Definition isCustomDataProperty (flags : t) : bool :=
  hasFlag flags ShapePropertyFlag.CustomDataProperty.

(** Lines 69-71. *)
Definition isDataProperty (flags : t) : bool :=
  negb (isAccessorProperty flags) && negb (isCustomDataProperty flags).

(** Line 81. *)
Definition isDataDescriptor (flags : t) : bool :=
  negb (isAccessorProperty flags).

(** Lines 62-65; the source asserts [isDataDescriptor()]. *)
Definition writable (flags : t) : bool :=
  hasFlag flags ShapePropertyFlag.Writable.

End ShapePropertyFlags.

(** [JS::PropertyAttributes] of [js/PropertyDescriptor.h]: a set over the
    three attributes, empty when built with [{}]. *)
Record PropertyAttributes := {
  attr_configurable : bool;
  attr_enumerable : bool;
  attr_writable : bool
}.

Module ShapeProperty.

(** Lines 92-93. *)
Definition FlagsMask : Z := 255.
Definition SlotShift : Z := 8.

(** The member [slotAndFlags_], a [uint32_t]. *)
Definition t := Z.

(** The constructor (lines 103-107); [slot << SlotShift] is computed on
    [uint32_t].  The source asserts that [maybeSlot()] and [flags()] give
    the arguments back. *)
Definition make (flags : ShapePropertyFlags.t) (slot : Z) : t :=
  Z.lor (uint32 (Z.shiftl slot SlotShift)) (ShapePropertyFlags.toRaw flags).

(** Line 124. *)
Definition maybeSlot (p : t) : Z := Z.shiftr p SlotShift.

(** Lines 126-128. *)
Definition flags (p : t) : ShapePropertyFlags.t :=
  ShapePropertyFlags.fromRaw (Z.land p FlagsMask).

(** Lines 111-116. *)
Definition isDataProperty (p : t) : bool :=
  ShapePropertyFlags.isDataProperty (flags p).
Definition isCustomDataProperty (p : t) : bool :=
  ShapePropertyFlags.isCustomDataProperty (flags p).
Definition isAccessorProperty (p : t) : bool :=
  ShapePropertyFlags.isAccessorProperty (flags p).
Definition isDataDescriptor (p : t) : bool :=
  ShapePropertyFlags.isDataDescriptor (flags p).
Definition hasSlot (p : t) : bool := negb (isCustomDataProperty p).

(** Lines 118-122; the source asserts [hasSlot()] and
    [maybeSlot() < SHAPE_INVALID_SLOT]. *)
Definition slot (p : t) : Z := maybeSlot p.

(** Lines 129-131. *)
Definition writable (p : t) : bool := ShapePropertyFlags.writable (flags p).
Definition configurable (p : t) : bool :=
  ShapePropertyFlags.configurable (flags p).
Definition enumerable (p : t) : bool :=
  ShapePropertyFlags.enumerable (flags p).

(** Lines 133-145. *)
Definition propAttributes (p : t) : PropertyAttributes :=
  {| attr_configurable := configurable p;
     attr_enumerable := enumerable p;
     attr_writable := isDataDescriptor p && writable p |}.

(** Lines 147-152. *)
Definition eqb (p other : t) : bool := (p =? other)%Z.
Definition neqb (p other : t) : bool := negb (eqb p other).

End ShapeProperty.

(** ** Reading the device log and the registry *)

Definition is_ConfigureDirect (c : WebrtcGonkH264VideoEncoder.OMXCall)
    : bool :=
  match c with
  | WebrtcGonkH264VideoEncoder.ConfigureDirect _ _ _ _ => true
  | _ => false
  end.

Definition is_RequestIDRFrame (c : WebrtcGonkH264VideoEncoder.OMXCall)
    : bool :=
  match c with
  | WebrtcGonkH264VideoEncoder.RequestIDRFrame => true
  | _ => false
  end.

(** The picture has the geometry the encoder holds: neither dimension is
    negative and both equal the members (the negation of the test of
    lines 274-275). *)
Definition same_geometry (e : WebrtcGonkH264VideoEncoder.t)
    (f : WebrtcGonkH264VideoEncoder.VideoFrame) : bool :=
  (negb (WebrtcGonkH264VideoEncoder.frame_width f <? 0)
   && (uint32 (WebrtcGonkH264VideoEncoder.frame_width f)
       =? WebrtcGonkH264VideoEncoder.mWidth e)
   && negb (WebrtcGonkH264VideoEncoder.frame_height f <? 0)
   && (uint32 (WebrtcGonkH264VideoEncoder.frame_height f)
       =? WebrtcGonkH264VideoEncoder.mHeight e))%Z.

(** [Encode] has to configure the device before it submits the picture. *)
Definition must_configure (e : WebrtcGonkH264VideoEncoder.t)
    (f : WebrtcGonkH264VideoEncoder.VideoFrame) : bool :=
  negb (WebrtcGonkH264VideoEncoder.mOMXConfigured e)
  || WebrtcGonkH264VideoEncoder.mOMXReconfigure e
  || negb (same_geometry e f).

(** The [ConfigureDirect] call [Encode] makes for a picture. *)
Definition configure_call (e : WebrtcGonkH264VideoEncoder.t)
    (f : WebrtcGonkH264VideoEncoder.VideoFrame)
    : WebrtcGonkH264VideoEncoder.OMXCall :=
  WebrtcGonkH264VideoEncoder.ConfigureDirect
    (uint32 (WebrtcGonkH264VideoEncoder.frame_width f))
    (uint32 (WebrtcGonkH264VideoEncoder.frame_height f))
    (WebrtcGonkH264VideoEncoder.mFrameRate e)
    (uint32 (WebrtcGonkH264VideoEncoder.mBitRateKbps e * 1000)).

(** The frames waiting in the registry of the encoder's drain, none before
    the drain is started. *)
Definition queued_frames (e : WebrtcGonkH264VideoEncoder.t)
    : list EncodedFrame :=
  match WebrtcGonkH264VideoEncoder.mOutputDrain e with
  | Some d => EncOutputDrain.mInputFrames d
  | None => []
  end.

(** The submissions of a sequence of [Decode] calls, in order. *)
Fixpoint decoder_log (extract : list Z -> option (list Z))
    (calls : list DecoderCall) (d : WebrtcGonkH264VideoDecoder.t)
    : list WebrtcGonkH264VideoDecoder.FillInputCall :=
  match calls with
  | [] => []
  | c :: rest =>
      snd (WebrtcGonkH264VideoDecoder.Decode extract d (call_image c)
             (call_render_time c) (call_env c))
      ++ decoder_log extract rest (decoder_call extract d c)
  end.

(** A picture of the given size, and the answers of a device that takes
    or rejects the configuration and the picture. *)
Definition sample_picture (w h : Z) : WebrtcGonkH264VideoEncoder.VideoFrame :=
  {| WebrtcGonkH264VideoEncoder.frame_width := w;
     WebrtcGonkH264VideoEncoder.frame_height := h;
     WebrtcGonkH264VideoEncoder.timestamp := 90000;
     WebrtcGonkH264VideoEncoder.render_time_ms := 1000 |}.

Definition sample_env (configure_fails takes_picture : bool)
    : WebrtcGonkH264VideoEncoder.EncodeEnv :=
  {| WebrtcGonkH264VideoEncoder.configure_failed := configure_fails;
     WebrtcGonkH264VideoEncoder.now_configured := 2000;
     WebrtcGonkH264VideoEncoder.now_keyframe := 2000;
     WebrtcGonkH264VideoEncoder.unwrapped := 90000;
     WebrtcGonkH264VideoEncoder.encode_ok := takes_picture |}.

(** ** Whole lifetimes

    What can happen to an instance between its constructor and its
    destructor: initialisations, the calls above, and [Release]. *)













(** * Theorems *)

(** ** The scanner *)

Lemma starts_with_code_inv (d : list Z) :
  starts_with kNALStartCode d = true ->
  exists d', d = 0%Z :: 0%Z :: 0%Z :: 1%Z :: d'.
Proof.
  unfold kNALStartCode.
  destruct d as [|a [|b [|c [|e d']]]]; cbn [starts_with];
    rewrite ?andb_false_r; try discriminate.
  rewrite andb_true_r, !andb_true_iff, !Z.eqb_eq.
  intros [Ha [Hb [Hc He]]]; subst. now exists d'.
Qed.

(** A marker does not overlap another one. *)
Lemma start_code_offsets_marker (base : nat) (d' : list Z) :
  start_code_offsets base (0 :: 0 :: 0 :: 1 :: d')%Z
  = base :: start_code_offsets (base + 4) d'.
Proof.
  cbn [start_code_offsets].
  replace (starts_with kNALStartCode (0 :: 0 :: 0 :: 1 :: d')%Z)
    with true by reflexivity.
  replace (starts_with kNALStartCode (0 :: 0 :: 1 :: d')%Z)
    with false by reflexivity.
  replace (starts_with kNALStartCode (0 :: 1 :: d')%Z)
    with false by reflexivity.
  replace (starts_with kNALStartCode (1 :: d')%Z)
    with false by reflexivity.
  do 2 f_equal. lia.
Qed.

Lemma find_start_code_None (base : nat) (d : list Z) :
  find_start_code d = None -> start_code_offsets base d = [].
Proof.
  revert base. induction d as [|a d IH]; intros base H; [reflexivity|].
  cbn [find_start_code start_code_offsets] in *.
  destruct (starts_with kNALStartCode (a :: d)); [discriminate|].
  destruct (find_start_code d); [discriminate|]. now apply IH.
Qed.

Lemma find_start_code_Some (base : nat) (d : list Z) (i : nat) :
  find_start_code d = Some i ->
  starts_with kNALStartCode (skipn i d) = true
  /\ start_code_offsets base d = start_code_offsets (base + i) (skipn i d)
  /\ i + 4 <= length d.
Proof.
  revert base i. induction d as [|a d IH]; intros base i H; [discriminate|].
  cbn [find_start_code] in H.
  destruct (starts_with kNALStartCode (a :: d)) eqn:E.
  - injection H as <-. cbn [skipn]. rewrite Nat.add_0_r.
    repeat split; auto.
    destruct (starts_with_code_inv _ E) as [d' ->]. simpl. lia.
  - destruct (find_start_code d) as [j|] eqn:F; [|discriminate].
    injection H as <-. destruct (IH (S base) j eq_refl) as [H1 [H2 H3]].
    cbn [skipn start_code_offsets length]. rewrite E.
    repeat split; auto; [|lia].
    rewrite H2. f_equal. lia.
Qed.

Lemma getNextNALUnit_None (base : nat) (d : list Z) :
  getNextNALUnit d = None -> start_code_offsets base d = [].
Proof.
  unfold getNextNALUnit. destruct (find_start_code d) eqn:F; [discriminate|].
  intros _. now apply find_start_code_None.
Qed.

(** One successful call of the scanner takes the first marker of the data
    and leaves the data pointer on the next one, or at the end. *)
Lemma getNextNALUnit_Some (base : nat) (d : list Z) (r : NextNAL) :
  getNextNALUnit d = Some r ->
  exists m,
    nalStart r = m + 4
    /\ advance r = nalStart r + nalSize r
    /\ advance r <= length d
    /\ start_code_offsets base d
       = (base + m)
         :: start_code_offsets (base + advance r) (skipn (advance r) d)
    /\ hd (base + length d)
          (start_code_offsets (base + advance r) (skipn (advance r) d))
       = base + advance r.
Proof.
  unfold getNextNALUnit, sizeof_kNALStartCode. cbn [kNALStartCode length].
  destruct (find_start_code d) as [i|] eqn:F; [|discriminate].
  intros H. injection H as <-. cbn [nalStart nalSize advance].
  destruct (find_start_code_Some base d i F) as [Hs [Ho Hl]].
  destruct (starts_with_code_inv _ Hs) as [d' Hd'].
  assert (Hbody : skipn (i + 4) d = d').
  { rewrite Nat.add_comm, <- skipn_skipn, Hd'. reflexivity. }
  assert (Hlen : length d = i + 4 + length d').
  { rewrite <- Hbody, length_skipn. lia. }
  rewrite Ho, Hd', start_code_offsets_marker, Hbody.
  exists i. split; [reflexivity|]. split; [reflexivity|].
  destruct (find_start_code d') as [j|] eqn:G.
  - destruct (find_start_code_Some (base + i + 4) d' j G) as [Hs' [Ho' Hl']].
    assert (Hnext : skipn (i + 4 + j) d = skipn j d').
    { rewrite (Nat.add_comm (i + 4) j), <- skipn_skipn, Hbody. reflexivity. }
    rewrite Hnext, Ho'.
    replace (base + (i + 4 + j)) with (base + i + 4 + j) by lia.
    split; [lia|]. split; [reflexivity|].
    destruct (starts_with_code_inv _ Hs') as [d'' ->].
    rewrite start_code_offsets_marker. reflexivity.
  - rewrite (find_start_code_None _ _ G).
    replace (i + 4 + length d') with (length d) by lia.
    rewrite skipn_all. split; [lia|]. split; reflexivity.
Qed.

Lemma uint32_small (z : Z) : (0 <= z < 2 ^ 32)%Z -> uint32 z = z.
Proof. intros H. unfold uint32. now apply Z.mod_small. Qed.

(** The loop of [SendEncodedDataToCallback] finds the start-code-delimited
    NAL units of the data, whenever it is given at least one turn more than
    the data has bytes. *)
Lemma nals_loop_delimited (turns base : nat) (d : list Z) :
  length d < turns ->
  (Z.of_nat (base + length d) < 2 ^ 32)%Z ->
  nals_loop turns base d
  = map entry_of
      (delimited_nals (start_code_offsets base d) (base + length d)).
Proof.
  revert base d. induction turns as [|turns IH]; intros base d Hf Hb; [lia|].
  cbn [nals_loop].
  destruct (getNextNALUnit d) as [r|] eqn:G.
  - destruct (getNextNALUnit_Some base d r G) as [m [Hs [Ha [Hl [Ho Hh]]]]].
    rewrite Ho. cbn [delimited_nals map]. rewrite Hh.
    assert (Hlen : length (skipn (advance r) d) = length d - advance r)
      by apply length_skipn.
    destruct turns as [|turns'].
    + assert (length d = 0) by lia. lia.
    + rewrite (IH (base + advance r) (skipn (advance r) d)); [|lia|lia].
      f_equal.
      * unfold entry_of, sizeof_kNALStartCode. cbn [kNALStartCode length fst snd].
        rewrite !uint32_small by lia. f_equal; f_equal; lia.
      * do 2 f_equal. lia.
  - now rewrite (getNextNALUnit_None base d G).
Qed.

(** More turns than the buffer has bytes change nothing: the loop of the
    source ends on its own. *)
Lemma nals_loop_turns (turns turns' base : nat) (d : list Z) :
  length d < turns -> length d < turns' ->
  nals_loop turns base d = nals_loop turns' base d.
Proof.
  revert turns' base d.
  induction turns as [|turns IH]; intros turns' base d H H'; [lia|].
  destruct turns' as [|turns']; [lia|].
  cbn [nals_loop]. destruct (getNextNALUnit d) as [r|] eqn:G; [|reflexivity].
  destruct (getNextNALUnit_Some 0 d r G) as [m [Hs [Ha [Hl _]]]].
  f_equal.
  assert (Hlen : length (skipn (advance r) d) = length d - advance r)
    by apply length_skipn.
  destruct (Nat.eq_dec (length (skipn (advance r) d)) 0) as [E|E].
  - apply length_zero_iff_nil in E. rewrite E.
    destruct turns, turns'; reflexivity.
  - apply IH; lia.
Qed.

Lemma nals_of_spec (buffer : list Z) :
  (Z.of_nat (length buffer) < 2 ^ 32)%Z ->
  nals_of buffer = map entry_of (spec_nals buffer).
Proof.
  intros H. unfold nals_of, spec_nals.
  now rewrite nals_loop_delimited by (cbn [Nat.add]; lia).
Qed.

(** ** ParamSetLength *)

(** The loop of [ParamSetLength] stops at the first marker whose NAL unit
    is neither SPS nor PPS. *)
Lemma ParamSetLength_loop_spec (turns : nat) (aData : list Z) (base : nat)
    (d : list Z) :
  length d < turns ->
  ParamSetLength_loop turns aData base d
  = match find (fun m => negb (is_SPS_or_PPS aData m))
               (start_code_offsets base d) with
    | Some m => m
    | None => length aData
    end.
Proof.
  revert base d. induction turns as [|turns IH]; intros base d Hf; [lia|].
  cbn [ParamSetLength_loop].
  destruct (getNextNALUnit d) as [r|] eqn:G.
  - destruct (getNextNALUnit_Some base d r G) as [m [Hs [Ha [Hl [Ho _]]]]].
    rewrite Ho. cbn [find]. unfold is_SPS_or_PPS at 1.
    unfold sizeof_kNALStartCode. cbn [kNALStartCode length].
    rewrite Hs, negb_orb.
    replace (base + (m + 4)) with (base + m + 4) by lia.
    destruct (negb (nal_type (byte_at aData (base + m + 4)) =? kNALTypeSPS)%Z
              && negb (nal_type (byte_at aData (base + m + 4))
                       =? kNALTypePPS)%Z).
    + lia.
    + assert (Hlen : length (skipn (advance r) d) = length d - advance r)
        by apply length_skipn.
      apply IH. lia.
  - now rewrite (getNextNALUnit_None base d G).
Qed.

Lemma ParamSetLength_spec (aData : list Z) :
  firstn (ParamSetLength aData) aData = spec_ParamSetBlob aData.
Proof.
  unfold ParamSetLength, spec_ParamSetBlob.
  rewrite ParamSetLength_loop_spec by lia.
  destruct (find _ _); [reflexivity|]. apply firstn_all.
Qed.

(** ** Fragmentation *)

Lemma start_code_offsets_spaced (d : list Z) :
  forall base, spaced (base + length d) base (start_code_offsets base d).
Proof.
  remember (length d) as n eqn:Hn. revert d Hn.
  induction n as [n IH] using lt_wf_ind. intros d Hn base.
  destruct (find_start_code d) as [i|] eqn:F.
  - destruct (find_start_code_Some base d i F) as [Hs [Ho Hl]].
    destruct (starts_with_code_inv _ Hs) as [d' Hd'].
    assert (Hlen : length d = i + 4 + length d').
    { rewrite <- (firstn_skipn i d) at 1. rewrite length_app, Hd'.
      rewrite firstn_length_le by lia. simpl. lia. }
    rewrite Ho, Hd', start_code_offsets_marker.
    constructor; [lia|lia|].
    replace (base + n) with (base + i + 4 + length d') by lia.
    apply (IH (length d')); [lia|reflexivity].
  - rewrite (find_start_code_None _ _ F). constructor.
Qed.

Lemma delimited_nals_marker_between (hi lo : nat) (marks : list nat) :
  spaced hi lo marks -> marker_between (map entry_of (delimited_nals marks hi)).
Proof.
  induction 1 as [lo|lo m ms Hlo Hhi Hms IH]; [exact I|].
  inversion Hms as [lo'|lo' m2 ms2 Hlo2 Hhi2 Hms2]; subst; [exact I|].
  cbn [delimited_nals map] in *. cbn [marker_between].
  split; [|exact IH].
  unfold entry_of, sizeof_kNALStartCode.
  cbn [offset size fst snd hd kNALStartCode length]. lia.
Qed.

Lemma length_delimited_nals (marks : list nat) (len : nat) :
  length (delimited_nals marks len) = length marks.
Proof. induction marks; cbn [delimited_nals length]; congruence. Qed.

Lemma send_nals_none (img : EncodedImage) :
  nals_of (_buffer img) = [] -> EncOutputDrain.send_nals img = [].
Proof. intros H. unfold EncOutputDrain.send_nals. now rewrite H. Qed.

Lemma send_nals_some (img : EncodedImage) :
  nals_of (_buffer img) <> [] ->
  exists u,
    EncOutputDrain.send_nals img
    = [ {| EncOutputDrain.unit := u;
           EncOutputDrain.fragmentation := nals_of (_buffer img) |} ]
    /\ _buffer u = _buffer img
    /\ _frameType u = _frameType img
    /\ _timeStamp u = _timeStamp img.
Proof.
  intros H. unfold EncOutputDrain.send_nals.
  destruct (nals_of (_buffer img)) as [|e es]; [congruence|].
  cbn [length Nat.ltb Nat.leb]. eexists. split; [reflexivity|].
  repeat split.
Qed.

(** *** Round trip through an Annex-B stream *)

(** A start code cannot begin inside a payload that holds none, whatever
    follows the payload in the stream. *)
Lemma no_start_code_straddles (x : Z) (payload rest : list Z) :
  find_start_code (x :: payload) = None ->
  rest = [] \/ (exists r, rest = kNALStartCode ++ r) ->
  starts_with kNALStartCode ((x :: payload) ++ rest) = false.
Proof.
  intros Hnone Hrest.
  assert (H0 : starts_with kNALStartCode (x :: payload) = false).
  { cbn [find_start_code] in Hnone.
    destruct (starts_with kNALStartCode (x :: payload));
      [discriminate|reflexivity]. }
  unfold kNALStartCode in *.
  destruct payload as [|a [|b [|c payload]]];
    [| | |cbn [app starts_with] in *; exact H0];
    destruct Hrest as [->|[r ->]]; cbn [app starts_with];
    rewrite ?andb_false_r; try reflexivity;
    replace (1 =? 0)%Z with false by reflexivity;
    rewrite ?andb_false_r; reflexivity.
Qed.

Lemma find_start_code_after_payload (payload rest : list Z) :
  find_start_code payload = None ->
  rest = [] \/ (exists r, rest = kNALStartCode ++ r) ->
  find_start_code (payload ++ rest)
  = match rest with [] => None | _ :: _ => Some (length payload) end.
Proof.
  intros Hnone Hrest. induction payload as [|x payload IH].
  - cbn [app length]. destruct Hrest as [->|[r ->]]; reflexivity.
  - assert (Hp : find_start_code payload = None).
    { cbn [find_start_code] in Hnone.
      destruct (starts_with kNALStartCode (x :: payload)); [discriminate|].
      destruct (find_start_code payload); [discriminate|reflexivity]. }
    pose proof (no_start_code_straddles x payload rest Hnone Hrest) as Hs.
    cbn [app] in Hs. cbn [app find_start_code length]. rewrite Hs, (IH Hp).
    destruct rest; reflexivity.
Qed.

Lemma annexb_shape (nals : list (list Z)) :
  annexb nals = [] \/ (exists r, annexb nals = kNALStartCode ++ r).
Proof.
  destruct nals as [|payload nals]; [left; reflexivity|].
  right. cbn [annexb flat_map]. eexists. rewrite <- app_assoc. reflexivity.
Qed.

(** One call of the scanner on a stream takes its first NAL unit whole. *)
Lemma getNextNALUnit_annexb (payload : list Z) (nals : list (list Z)) :
  find_start_code payload = None ->
  getNextNALUnit (annexb (payload :: nals))
  = Some {| nalStart := 4; nalSize := length payload;
            advance := 4 + length payload |}
  /\ skipn (4 + length payload) (annexb (payload :: nals)) = annexb nals.
Proof.
  intros Hnone.
  assert (Heq : annexb (payload :: nals)
                = (0 :: 0 :: 0 :: 1 :: payload ++ annexb nals)%Z).
  { cbn [annexb flat_map]. rewrite <- app_assoc. reflexivity. }
  rewrite Heq. split.
  - unfold getNextNALUnit.
    replace (find_start_code (0 :: 0 :: 0 :: 1 :: payload ++ annexb nals)%Z)
      with (Some 0) by reflexivity.
    cbn [Nat.add sizeof_kNALStartCode kNALStartCode length skipn].
    rewrite (find_start_code_after_payload payload (annexb nals) Hnone
               (annexb_shape nals)).
    destruct (annexb nals) as [|y ys] eqn:E.
    + now rewrite app_nil_r.
    + reflexivity.
  - cbn [Nat.add skipn]. rewrite skipn_app, skipn_all, Nat.sub_diag.
    reflexivity.
Qed.

Lemma nals_loop_annexb (nals : list (list Z)) :
  Forall (fun payload => find_start_code payload = None) nals ->
  forall turns base,
    length (annexb nals) < turns ->
    (Z.of_nat (base + length (annexb nals)) < 2 ^ 32)%Z ->
    nals_loop turns base (annexb nals) = annexb_entries base nals.
Proof.
  induction 1 as [|payload nals Hp _ IH]; intros turns base Ht Hb.
  - destruct turns; reflexivity.
  - destruct turns as [|turns]; [lia|].
    destruct (getNextNALUnit_annexb payload nals Hp) as [Hg Hs].
    assert (Hlen : length (annexb (payload :: nals))
                   = 4 + length payload + length (annexb nals)).
    { change (annexb (payload :: nals))
        with ((kNALStartCode ++ payload) ++ annexb nals).
      rewrite !length_app. cbn [kNALStartCode length]. lia. }
    cbn [nals_loop]. rewrite Hg. cbn [nalStart nalSize advance].
    rewrite Hs, IH by lia.
    cbn [annexb_entries]. unfold sizeof_kNALStartCode.
    cbn [kNALStartCode length]. rewrite !uint32_small by lia.
    do 2 f_equal. lia.
Qed.

Lemma span_bytes_annexb (nals : list (list Z)) :
  forall before : list Z,
    map (span_bytes (before ++ annexb nals))
      (annexb_entries (length before) nals)
    = nals.
Proof.
  induction nals as [|payload nals IH]; intros before; [reflexivity|].
  cbn [annexb_entries map]. f_equal.
  - unfold span_bytes, sizeof_kNALStartCode.
    cbn [offset size kNALStartCode length]. rewrite !Nat2Z.id.
    cbn [annexb flat_map].
    rewrite skipn_app, skipn_all2 by lia.
    replace (length before + 4 - length before) with 4 by lia.
    rewrite <- app_assoc. unfold kNALStartCode. cbn [app skipn].
    now rewrite firstn_app, firstn_all, Nat.sub_diag, app_nil_r.
  - specialize (IH (before ++ kNALStartCode ++ payload)).
    rewrite !length_app in IH. unfold sizeof_kNALStartCode.
    rewrite Nat.add_assoc in IH.
    cbn [annexb flat_map]. rewrite <- !app_assoc in *. exact IH.
Qed.

(** The pairs found in a stream of NAL units that hold no start code span
    exactly the NAL units, in order. *)
Lemma annexb_round_trip (nals : list (list Z)) :
  Forall (fun payload => find_start_code payload = None) nals ->
  (Z.of_nat (length (annexb nals)) < 2 ^ 32)%Z ->
  map (span_bytes (annexb nals)) (nals_of (annexb nals)) = nals.
Proof.
  intros Hp Hlen. unfold nals_of.
  rewrite nals_loop_annexb by (auto; cbn [Nat.add]; lia).
  exact (span_bytes_annexb nals []).
Qed.

(** C4: for any delivered buffer (shorter than 2^32 bytes) with k
    start-code-delimited NAL units, the fragmentation descriptor handed to
    the callback holds exactly k offset/size pairs, the spans of those NAL
    units measured from the start of the buffer, in ascending order and
    with nothing but a start code between two consecutive spans; when the
    buffer is the Annex-B stream of k NAL units, the pairs span exactly
    these NAL units; a buffer in which no NAL unit is found is not passed
    to the callback. *)
Theorem fragmentation_covers_nal_units (img : EncodedImage) :
  (Z.of_nat (length (_buffer img)) < 2 ^ 32)%Z ->
  let units := spec_nals (_buffer img) in
  let k := length (start_code_offsets 0 (_buffer img)) in
  length units = k
  /\ (k = 0 -> EncOutputDrain.send_nals img = [])
  /\ (0 < k ->
      exists u,
        EncOutputDrain.send_nals img
        = [ {| EncOutputDrain.unit := u;
               EncOutputDrain.fragmentation := map entry_of units |} ]
        /\ _buffer u = _buffer img)
  /\ marker_between (map entry_of units)
  /\ (forall nals : list (list Z),
        Forall (fun payload => find_start_code payload = None) nals ->
        _buffer img = annexb nals ->
        k = length nals
        /\ map (span_bytes (_buffer img)) (map entry_of units) = nals)
  /\ (forall img' : EncodedImage,
        nals_of (_buffer img') = [] -> EncOutputDrain.send_nals img' = []).
Proof.
  intros Hlen units k.
  assert (Hk : length units = k) by apply length_delimited_nals.
  assert (Hn : nals_of (_buffer img) = map entry_of units)
    by now apply nals_of_spec.
  split; [exact Hk|]. split; [|split; [|split; [|split]]].
  - intros H0. apply send_nals_none. rewrite Hn.
    destruct units; [reflexivity|]. cbn [length] in Hk. lia.
  - intros Hpos.
    destruct (send_nals_some img) as [u [Hu [Hb _]]].
    + rewrite Hn. destruct units; [cbn [length] in Hk; lia|discriminate].
    + exists u. rewrite <- Hn. auto.
  - apply (delimited_nals_marker_between _ 0).
    apply (start_code_offsets_spaced (_buffer img) 0).
  - intros nals Hp Hb.
    assert (Hr : map (span_bytes (_buffer img)) (map entry_of units) = nals).
    { rewrite <- Hn, Hb. apply annexb_round_trip; [exact Hp|].
      rewrite <- Hb. exact Hlen. }
    split; [|exact Hr].
    rewrite <- Hk. apply (f_equal (@length (list Z))) in Hr.
    rewrite !length_map in Hr. exact Hr.
  - exact send_nals_none.
Qed.

Lemma fragmentation_covers_nal_units_witness :
  let img := sample_image sample_sps_pps_idr in
  (Z.of_nat (length (_buffer img)) < 2 ^ 32)%Z
  /\ length (spec_nals (_buffer img)) = 3
  /\ exists u,
       EncOutputDrain.send_nals img
       = [ {| EncOutputDrain.unit := u;
              EncOutputDrain.fragmentation :=
                [ {| offset := 4; size := 2 |};
                  {| offset := 10; size := 2 |};
                  {| offset := 16; size := 3 |} ] |} ]
       /\ _buffer u = sample_sps_pps_idr.
Proof.
  assert (Hlen : (Z.of_nat (length (_buffer (sample_image sample_sps_pps_idr)))
                  < 2 ^ 32)%Z) by (vm_compute; reflexivity).
  split; [exact Hlen|].
  destruct (fragmentation_covers_nal_units
              (sample_image sample_sps_pps_idr) Hlen) as [Hk [_ [Hsome _]]].
  split; [exact Hk|].
  apply Hsome. vm_compute. lia.
Defined.

(** ** The drain loop *)

Section DrainFacts.

Import EncOutputDrain.

Variable absent_frame : EncodedFrame.

(** Lines 100-142 for an output that holds bytes, with a callback set. *)
Lemma DrainOutput_drained (d : t) (o : EncodedOutput) :
  mCallback d = true -> rv_failed o = false -> output o <> [] ->
  DrainOutput absent_frame d o
  = (negb (IsParamSets (output o)),
     {| mCallback := true;
        mIsPrevFrameParamSets :=
          IsParamSets (output o) && negb (isIFrame_of (flags o));
        mParamSets := if IsParamSets (output o)
                      then firstn (ParamSetLength (output o)) (output o)
                      else mParamSets d;
        mInputFrames := snd (Pop absent_frame (timeUs o) (mInputFrames d)) |},
     SendEncodedDataToCallback d
       (encoded_image o
          (fst (Pop absent_frame (timeUs o) (mInputFrames d))))
       (isIFrame_of (flags o) && negb (mIsPrevFrameParamSets d)
        && negb (IsParamSets (output o)))).
Proof.
  intros Hc Hrv Ho. unfold DrainOutput. rewrite Hc, Hrv.
  destruct (output o) as [|b bs] eqn:E; [congruence|].
  cbn [length Nat.eqb].
  destruct (Pop absent_frame (timeUs o) (mInputFrames d)) as [f frames].
  reflexivity.
Qed.

Lemma IsParamSets_nonempty (buffer : list Z) :
  IsParamSets buffer = true -> buffer <> [].
Proof. intros H ->. discriminate H. Qed.

(** C6: whenever a drained AccessUnit is flagged isParamSet (the drain has
    its callback), the cached ParamSetBlob is replaced by the leading bytes
    of the buffer up to, not including, the start code of the first NAL
    unit that is neither SPS nor PPS, or by the whole buffer when every NAL
    unit in it is SPS or PPS. *)
Theorem param_set_cache_replaced (d : t) (o : EncodedOutput) :
  mCallback d = true -> rv_failed o = false ->
  IsParamSets (output o) = true ->
  mParamSets (snd (fst (DrainOutput absent_frame d o)))
  = spec_ParamSetBlob (output o).
Proof.
  intros Hc Hrv Hp.
  rewrite DrainOutput_drained by auto using IsParamSets_nonempty.
  cbn [fst snd mParamSets]. rewrite Hp. apply ParamSetLength_spec.
Qed.

(** What the drain remembers of an output it has handed to the callback. *)
Lemma DrainOutput_prev_flag (d : t) (o : EncodedOutput) :
  mCallback d = true -> rv_failed o = false -> output o <> [] ->
  let d' := snd (fst (DrainOutput absent_frame d o)) in
  mCallback d' = true
  /\ mIsPrevFrameParamSets d'
     = IsParamSets (output o) && negb (isIFrame_of (flags o)).
Proof.
  intros Hc Hrv Ho. rewrite DrainOutput_drained by assumption.
  split; reflexivity.
Qed.

Lemma spaced_lower (hi lo : nat) (marks : list nat) :
  spaced hi lo marks -> Forall (fun m => lo <= m) marks.
Proof.
  induction 1 as [lo|lo m ms Hlo Hhi Hms IH]; constructor; [exact Hlo|].
  eapply Forall_impl; [|exact IH]. cbn. intros. lia.
Qed.

(** The cache taken from a buffer that opens with a start code and an SPS
    opens with that start code: at least one NAL unit is found in it. *)
Lemma cached_param_sets_hold_a_nal (b : Z) (rest : list Z) :
  nal_type b = kNALTypeSPS ->
  nals_of (spec_ParamSetBlob (kNALStartCode ++ b :: rest)) <> [].
Proof.
  intros Hb.
  assert (Hopen : forall blob, nals_of (kNALStartCode ++ blob) <> []).
  { intros blob. unfold nals_of. cbn [nals_loop].
    replace (getNextNALUnit (kNALStartCode ++ blob))
      with (Some {| nalStart := 4;
                    nalSize := match find_start_code blob with
                               | Some j => j | None => length blob end;
                    advance := 4 + match find_start_code blob with
                                   | Some j => j | None => length blob end |})
      by reflexivity.
    discriminate. }
  unfold spec_ParamSetBlob.
  destruct (find _ _) as [m|] eqn:F; [|apply Hopen].
  apply find_some in F. destruct F as [Hin Hm].
  unfold kNALStartCode in Hin at 1. cbn [app] in Hin.
  rewrite start_code_offsets_marker in Hin. destruct Hin as [<-|Hin].
  - exfalso. unfold is_SPS_or_PPS in Hm.
    replace (byte_at (kNALStartCode ++ b :: rest) (0 + sizeof_kNALStartCode))
      with b in Hm by reflexivity.
    rewrite Hb in Hm. discriminate Hm.
  - pose proof (spaced_lower _ _ _
                  (start_code_offsets_spaced (b :: rest) (0 + 4))) as Hge.
    rewrite Forall_forall in Hge. specialize (Hge m Hin).
    destruct m as [|[|[|[|m]]]]; try lia.
    cbn [kNALStartCode app firstn]. apply (Hopen (firstn m (b :: rest))).
Qed.

(** In particular the cache holds a NAL unit once the drain has handed on
    an output that opens with a start code and an SPS. *)
Lemma drained_param_sets_hold_a_nal (d : t) (o : EncodedOutput) (b : Z)
    (rest : list Z) :
  mCallback d = true -> rv_failed o = false ->
  output o = kNALStartCode ++ b :: rest -> nal_type b = kNALTypeSPS ->
  nals_of (mParamSets (snd (fst (DrainOutput absent_frame d o)))) <> [].
Proof.
  intros Hc Hrv Ho Hb.
  assert (Hp : IsParamSets (output o) = true).
  { rewrite Ho. unfold IsParamSets.
    replace (byte_at (kNALStartCode ++ b :: rest) sizeof_kNALStartCode)
      with b by reflexivity.
    now apply Z.eqb_eq. }
  rewrite DrainOutput_drained by auto using IsParamSets_nonempty.
  cbn [fst snd mParamSets]. rewrite Hp, ParamSetLength_spec, Ho.
  now apply cached_param_sets_hold_a_nal.
Qed.

(** C1: of two AccessUnits drained one after the other, the second, when
    flagged keyframe and not parameter-set, has the cached ParamSetBlob sent
    through the delivery step ahead of its own NAL units, as an invocation
    of its own that carries the cache and its fragmentation whenever the
    cache holds a NAL unit, unless the first was parameter-set-only; a
    parameter-set or delta AccessUnit gets nothing prepended. *)
Theorem param_sets_prepended_to_keyframes (d : t) (o1 o2 : EncodedOutput) :
  mCallback d = true ->
  rv_failed o1 = false -> output o1 <> [] ->
  rv_failed o2 = false -> output o2 <> [] ->
  let d1 := snd (fst (DrainOutput absent_frame d o1)) in
  let sent := snd (DrainOutput absent_frame d1 o2) in
  let encoded :=
    encoded_image o2 (fst (Pop absent_frame (timeUs o2) (mInputFrames d1))) in
  let own := send_nals encoded in
  let paramSetOnly1 :=
    IsParamSets (output o1) && negb (isIFrame_of (flags o1)) in
  let keyframe2 :=
    isIFrame_of (flags o2) && negb (IsParamSets (output o2)) in
  (keyframe2 = true -> paramSetOnly1 = false ->
   sent = send_nals (prepend_image (mParamSets d1) encoded) ++ own
   /\ (nals_of (mParamSets d1) <> [] ->
       exists blob,
         sent = blob :: own
         /\ _buffer (unit blob) = mParamSets d1
         /\ fragmentation blob = nals_of (mParamSets d1)
         /\ _frameType (unit blob) = kVideoFrameKey))
  /\ (keyframe2 = true -> paramSetOnly1 = true -> sent = own)
  /\ (keyframe2 = false -> sent = own).
Proof.
  intros Hc Hrv1 Ho1 Hrv2 Ho2 d1 sent encoded own paramSetOnly1 keyframe2.
  destruct (DrainOutput_prev_flag d o1 Hc Hrv1 Ho1) as [Hc1 Hp1].
  fold d1 in Hc1, Hp1. fold paramSetOnly1 in Hp1.
  assert (Hsent : sent
            = (if isIFrame_of (flags o2) && negb paramSetOnly1
                  && negb (IsParamSets (output o2))
               then send_nals (prepend_image (mParamSets d1) encoded)
               else []) ++ own).
  { unfold sent. rewrite DrainOutput_drained by assumption.
    cbn [snd]. unfold SendEncodedDataToCallback. now rewrite Hp1. }
  assert (Hkey : isIFrame_of (flags o2) = true ->
                 _frameType (prepend_image (mParamSets d1) encoded)
                 = kVideoFrameKey).
  { intros Hi. unfold prepend_image, encoded, encoded_image.
    cbn [_frameType]. now rewrite Hi, orb_true_r. }
  subst keyframe2.
  destruct (isIFrame_of (flags o2)), (IsParamSets (output o2)),
    paramSetOnly1; cbn [andb negb] in *;
    (split; [|split]); intros; try discriminate; try exact Hsent.
  split; [exact Hsent|]. intros Hn.
  destruct (send_nals_some (prepend_image (mParamSets d1) encoded))
    as [u [Hu [Hb [Hf _]]]]; [assumption|].
  rewrite Hu in Hsent. eexists. split; [exact Hsent|].
  split; [exact Hb|]. split; [reflexivity|].
  cbn [unit]. rewrite Hf. now apply Hkey.
Qed.

(** C3, as the code has it: whether or not the registry holds a frame for
    the timestamp of a drained AccessUnit, the AccessUnit is classified the
    same, the parameter-set cache is updated the same, and the same buffers
    go to the callback with the same frame type and fragmentation; only the
    metadata copied from the frame that [Pop] returns differs. *)
Theorem unmatched_output_still_delivered (d : t)
    (frames1 frames2 : list EncodedFrame) (o : EncodedOutput) :
  let r1 := DrainOutput absent_frame (with_frames d frames1) o in
  let r2 := DrainOutput absent_frame (with_frames d frames2) o in
  fst (fst r1) = fst (fst r2)
  /\ mParamSets (snd (fst r1)) = mParamSets (snd (fst r2))
  /\ mIsPrevFrameParamSets (snd (fst r1))
     = mIsPrevFrameParamSets (snd (fst r2))
  /\ map payload_of (snd r1) = map payload_of (snd r2).
Proof.
  unfold DrainOutput, with_frames.
  cbn [mCallback mIsPrevFrameParamSets mParamSets mInputFrames].
  destruct (rv_failed o); [repeat split|].
  destruct (length (output o) =? 0); [repeat split|].
  destruct (mCallback d); [|repeat split].
  destruct (Pop absent_frame (timeUs o) frames1) as [f1 rest1].
  destruct (Pop absent_frame (timeUs o) frames2) as [f2 rest2].
  cbn [fst snd mParamSets mIsPrevFrameParamSets].
  repeat split.
  unfold SendEncodedDataToCallback, send_nals, prepend_image, encoded_image.
  cbn [_buffer mParamSets].
  rewrite !map_app. f_equal.
  - destruct (isIFrame_of (flags o) && negb (mIsPrevFrameParamSets d)
              && negb (IsParamSets (output o))); [|reflexivity].
    destruct (0 <? length (nals_of (mParamSets d))); reflexivity.
  - destruct (0 <? length (nals_of (output o))); reflexivity.
Qed.

(** [Pop] on a registry that holds no frame for the timestamp. *)
Lemma Pop_absent (aTimeUs : Z) (frames : list EncodedFrame) :
  Forall (fun f => mTimestampUs f <> aTimeUs) frames ->
  Pop absent_frame aTimeUs frames = (absent_frame, frames).
Proof.
  induction 1 as [|f frames Hf _ IH]; [reflexivity|].
  cbn [Pop]. apply Z.eqb_neq in Hf. now rewrite Hf, IH.
Qed.

(** C7, as the code has it: a drained AccessUnit that opens with a start
    code is flagged isParamSet if and only if the NAL unit behind that start
    code is an SPS; the value [DrainOutput] returns is the negated flag
    whatever the device reports in [flags], and an AccessUnit with both the
    parameter-set and the keyframe flag goes to the callback like any
    other, as a key frame without prepended parameter sets. *)
Theorem param_set_flag_is_leading_SPS (d : t) (o : EncodedOutput) (b : Z)
    (rest : list Z) :
  rv_failed o = false ->
  output o = kNALStartCode ++ b :: rest ->
  (IsParamSets (output o) = true <-> nal_type b = kNALTypeSPS)
  /\ fst (fst (DrainOutput absent_frame d o))
     = negb (nal_type b =? kNALTypeSPS)%Z
  /\ (mCallback d = true -> nal_type b = kNALTypeSPS ->
      isIFrame_of (flags o) = true ->
      let encoded :=
        encoded_image o
          (fst (Pop absent_frame (timeUs o) (mInputFrames d))) in
      snd (DrainOutput absent_frame d o) = send_nals encoded
      /\ _frameType encoded = kVideoFrameKey
      /\ mIsPrevFrameParamSets (snd (fst (DrainOutput absent_frame d o)))
         = false).
Proof.
  intros Hrv Ho.
  assert (Hp : IsParamSets (output o) = (nal_type b =? kNALTypeSPS)%Z)
    by (rewrite Ho; reflexivity).
  assert (Hne : output o <> []) by (rewrite Ho; discriminate).
  split; [rewrite Hp; apply Z.eqb_eq|]. split.
  - unfold DrainOutput. rewrite Hrv.
    destruct (output o) as [|x xs] eqn:E; [congruence|].
    cbn [length Nat.eqb]. rewrite Hp.
    destruct (mCallback d); [|reflexivity].
    destruct (Pop absent_frame (timeUs o) (mInputFrames d)). reflexivity.
  - intros Hc Hb Hi encoded. apply Z.eqb_eq in Hb.
    rewrite DrainOutput_drained by assumption.
    cbn [fst snd mIsPrevFrameParamSets]. subst encoded.
    unfold SendEncodedDataToCallback, encoded_image. cbn [_frameType].
    rewrite Hp, Hb, Hi. cbn [andb negb orb app].
    rewrite andb_false_r. repeat split.
Qed.

End DrainFacts.

Lemma param_set_cache_replaced_witness :
  let d := sample_drain false [9; 9]%Z [] in
  let o := sample_output sample_sps_pps_idr 0 1 in
  EncOutputDrain.mCallback d = true
  /\ EncOutputDrain.rv_failed o = false
  /\ IsParamSets (EncOutputDrain.output o) = true
  /\ EncOutputDrain.mParamSets
       (snd (fst (EncOutputDrain.DrainOutput no_frame d o)))
     = sample_sps_pps.
Proof.
  do 3 (split; [reflexivity|]).
  exact (param_set_cache_replaced no_frame
           (sample_drain false [9; 9]%Z [])
           (sample_output sample_sps_pps_idr 0 1) eq_refl eq_refl eq_refl).
Defined.

(** ** The keyframe scheduler *)

Section EncoderFacts.

Import WebrtcGonkH264VideoEncoder.

(** C2, as the code has it: with the bitrate-drift policy compiled in and
    no keyframe requested by the caller, an IDR is requested exactly when
    the bitrate differs from the bitrate at the last IDR and one of the
    listed conditions holds, the thresholds being computed on 32-bit
    unsigned integers and rounded down; on a request the bitrate at the
    last IDR becomes the current bitrate and the time of the last IDR
    becomes now, otherwise both stay. *)
Theorem bitrate_drift_requests_IDR (e : t)
    (aFrameTypes : option (list FrameType)) (now : Z) :
  key_frame_requested aFrameTypes = false ->
  let B := mBitRateKbps e in
  let B0 := mBitRateAtLastIDR e in
  let last := match mLastIDRTime e with Some l => l | None => now end in
  let T := (now - last)%Z in
  let e' := fst (Encode_keyframe true e aFrameTypes now) in
  let calls := snd (Encode_keyframe true e aFrameTypes now) in
  (calls = [RequestIDRFrame] <->
   B <> B0
   /\ (T > 3000
       \/ B < uint32 (B0 * 8) / 10
       \/ (T < 300 /\ B < uint32 (B0 * 9) / 10)
       \/ (T < 1000 /\ B < uint32 (B0 * 97) / 100)
       \/ (T >= 1000 /\ B < B0)
       \/ B > uint32 (B0 * 15) / 10
       \/ (T < 500 /\ B > uint32 (B0 * 13) / 10)
       \/ (T < 1000 /\ B > uint32 (B0 * 11) / 10)
       \/ (T >= 1000 /\ B > B0))%Z)
  /\ (calls = [RequestIDRFrame] ->
      mBitRateAtLastIDR e' = B /\ mLastIDRTime e' = Some now)
  /\ (calls <> [RequestIDRFrame] ->
      calls = [] /\ mBitRateAtLastIDR e' = B0
      /\ (B <> B0 -> mLastIDRTime e' = Some last)
      /\ (B = B0 -> e' = e)).
Proof.
  intros Hk B B0 last T e' calls.
  unfold e', calls, Encode_keyframe. rewrite Hk. cbn [andb].
  fold B B0. destruct (Z.eqb_spec B B0) as [Heq|Hne]; cbn [negb fst snd].
  - split; [|split].
    + split; [discriminate|]. intros [H _]. contradiction.
    + discriminate.
    + intros _. repeat split; auto. contradiction.
  - fold last. fold T.
    destruct (bitrate_change_needs_IDR B B0 T) eqn:E; cbn [fst snd].
    + split; [|split].
      * split; [|reflexivity]. intros _. split; [exact Hne|].
        unfold bitrate_change_needs_IDR in E.
        repeat rewrite ?orb_true_iff, ?andb_true_iff in E.
        repeat rewrite ?Z.ltb_lt, ?Z.leb_le in E. lia.
      * intros _. split; reflexivity.
      * intros H. congruence.
    + split; [|split].
      * split; [discriminate|]. intros [_ H]. exfalso.
        unfold bitrate_change_needs_IDR in E.
        repeat rewrite ?orb_false_iff, ?andb_false_iff in E.
        repeat rewrite ?Z.ltb_ge, ?Z.leb_gt in E. lia.
      * discriminate.
      * intros _. repeat split; auto. contradiction.
Qed.

End EncoderFacts.

(** The scenario the specification gives for the time limit: the bitrate
    is 1000 kbps as at the last IDR, 4000 ms have passed, the caller asks
    for no keyframe.  No IDR is requested and nothing changes; the whole
    [Encode] sends the picture to the device and nothing else.  And with
    101 kbps at the last IDR, 97 kbps now and 200 ms passed, 97 is below
    0.97 times 101 but not below 101 * 97 / 100 rounded down: no IDR. *)
Lemma no_IDR_while_bitrate_unchanged :
  let e := sample_encoder 30 1000 1000 (Some 0%Z) in
  let f := {| WebrtcGonkH264VideoEncoder.frame_width := 640;
              WebrtcGonkH264VideoEncoder.frame_height := 480;
              WebrtcGonkH264VideoEncoder.timestamp := 360000;
              WebrtcGonkH264VideoEncoder.render_time_ms := 4000 |} in
  let env := {| WebrtcGonkH264VideoEncoder.configure_failed := false;
                WebrtcGonkH264VideoEncoder.now_configured := 4000;
                WebrtcGonkH264VideoEncoder.now_keyframe := 4000;
                WebrtcGonkH264VideoEncoder.unwrapped := 360000;
                WebrtcGonkH264VideoEncoder.encode_ok := true |} in
  WebrtcGonkH264VideoEncoder.key_frame_requested None = false
  /\ (4000 - 0 > 3000)%Z
  /\ WebrtcGonkH264VideoEncoder.Encode_keyframe true e None 4000 = (e, [])
  /\ snd (WebrtcGonkH264VideoEncoder.Encode true e f None env)
     = [WebrtcGonkH264VideoEncoder.OMXEncode 640 480 4000000]
  /\ (100 * 97 < 97 * 101)%Z
  /\ snd (WebrtcGonkH264VideoEncoder.Encode_keyframe true
            (sample_encoder 30 97 101 (Some 0%Z)) None 200)
     = [].
Proof. repeat split. Qed.

(** The other scenarios of the specification, with the last IDR at 1000 kbps:
    790 kbps after 100 ms and 870 kbps after 200 ms request an IDR, 990 kbps
    after 200 ms does not. *)
Lemma bitrate_drift_scenarios :
  snd (WebrtcGonkH264VideoEncoder.Encode_keyframe true
         (sample_encoder 30 790 1000 (Some 0%Z)) None 100)
  = [WebrtcGonkH264VideoEncoder.RequestIDRFrame]
  /\ snd (WebrtcGonkH264VideoEncoder.Encode_keyframe true
            (sample_encoder 30 870 1000 (Some 0%Z)) None 200)
     = [WebrtcGonkH264VideoEncoder.RequestIDRFrame]
  /\ snd (WebrtcGonkH264VideoEncoder.Encode_keyframe true
            (sample_encoder 30 990 1000 (Some 0%Z)) None 200)
     = [].
Proof. repeat split. Qed.

Lemma bitrate_drift_requests_IDR_witness :
  let e := sample_encoder 30 790 1000 (Some 0%Z) in
  WebrtcGonkH264VideoEncoder.key_frame_requested (Some [kVideoFrameDelta])
  = false
  /\ WebrtcGonkH264VideoEncoder.mBitRateAtLastIDR
       (fst (WebrtcGonkH264VideoEncoder.Encode_keyframe true e
               (Some [kVideoFrameDelta]) 100))
     = 790%Z.
Proof.
  split; [reflexivity|].
  destruct (bitrate_drift_requests_IDR
              (sample_encoder 30 790 1000 (Some 0%Z))
              (Some [kVideoFrameDelta]) 100 eq_refl) as [_ [H _]].
  exact (proj1 (H eq_refl)).
Defined.

(** ** SetRates *)

Section RateFacts.

Import WebrtcGonkH264VideoEncoder.

Variable TEST_OMX_FRAMERATE_CHANGES : bool.

(** C10: on an encoder whose device exists, [SetRates] returns
    WEBRTC_VIDEO_CODEC_OK exactly when the device's SetBitrate fails and
    WEBRTC_VIDEO_CODEC_ERROR exactly when it succeeds. *)
Theorem SetRates_returns_OK_on_failure (e : t) (aBitRateKbps aFrameRate : Z)
    (set_bitrate_failed : bool) :
  mOMX e = true ->
  let rc := fst (fst (SetRates TEST_OMX_FRAMERATE_CHANGES e aBitRateKbps
                        aFrameRate set_bitrate_failed)) in
  (rc = WEBRTC_VIDEO_CODEC_OK <-> set_bitrate_failed = true)
  /\ (rc = WEBRTC_VIDEO_CODEC_ERROR <-> set_bitrate_failed = false)
  /\ snd (SetRates TEST_OMX_FRAMERATE_CHANGES e aBitRateKbps aFrameRate
            set_bitrate_failed)
     = [SetBitrate aBitRateKbps].
Proof.
  intros H. unfold SetRates. rewrite H. cbn [negb].
  destruct (SetRates_frame_rate _ _ _) as [rate reconfigure].
  cbn [fst snd]. destruct set_bitrate_failed; repeat split; congruence.
Qed.

End RateFacts.

Lemma SetRates_returns_OK_on_failure_witness :
  WebrtcGonkH264VideoEncoder.mOMX (sample_encoder 30 500 500 None) = true
  /\ (fst (fst (WebrtcGonkH264VideoEncoder.SetRates false
                  (sample_encoder 30 500 500 None) 600 30 true))
      = WEBRTC_VIDEO_CODEC_OK <-> true = true).
Proof.
  split; [reflexivity|].
  exact (proj1 (SetRates_returns_OK_on_failure false
                  (sample_encoder 30 500 500 None) 600 30 true eq_refl)).
Defined.

Section LadderFacts.

Import WebrtcGonkH264VideoEncoder.

(** The rate the thresholds of lines 512-521 pick. *)
Lemma SetRates_frame_rate_unfold (c r : Z) :
  SetRates_frame_rate false c r
  = if ((c <? r) || (r <? c / 2))%Z
    then (Z.max (if (15 <=? r)%Z then 30 else if (10 <=? r)%Z then 20
                 else if (8 <=? r)%Z then 15 else 10) r,
          negb (c =? Z.max (if (15 <=? r)%Z then 30
                            else if (10 <=? r)%Z then 20
                            else if (8 <=? r)%Z then 15 else 10) r)%Z)
    else (c, false).
Proof.
  unfold SetRates_frame_rate.
  destruct ((c <? r) || (r <? c / 2))%Z; [|reflexivity].
  assert (H : forall l : Z, (if (l <? r)%Z then r else l) = Z.max l r).
  { intros l. destruct (Z.ltb_spec l r); lia. }
  now rewrite H.
Qed.

(** C8, as the code has it: when the requested frame rate is above the
    configured rate or below half of it, [SetRates] sets the rate to 30 for
    a request of 15 or more, 20 for 10 to 14, 15 for 8 or 9 and 10 below 8,
    and to the request itself above 30: a rate at or above the request, on
    the ladder 10/15/20/30 for requests up to 30; otherwise the configured
    rate stays.  A reconfiguration is asked for exactly when the rate
    changed. *)
Theorem SetRates_frame_rate_ladder (e : t) (aBitRateKbps aFrameRate : Z)
    (set_bitrate_failed : bool) :
  mOMX e = true ->
  let e' := snd (fst (SetRates false e aBitRateKbps aFrameRate
                        set_bitrate_failed)) in
  let c := mFrameRate e in
  let step := (if 15 <=? aFrameRate then 30
               else if 10 <=? aFrameRate then 20
               else if 8 <=? aFrameRate then 15 else 10)%Z in
  ((c < aFrameRate \/ aFrameRate < c / 2)%Z ->
   mFrameRate e' = Z.max step aFrameRate
   /\ (aFrameRate <= mFrameRate e')%Z
   /\ ((aFrameRate <= 30)%Z -> In (mFrameRate e') [10; 15; 20; 30]%Z))
  /\ (~ (c < aFrameRate \/ aFrameRate < c / 2)%Z -> mFrameRate e' = c)
  /\ (mOMXReconfigure e' = true <->
      mFrameRate e' <> c \/ mOMXReconfigure e = true).
Proof.
  intros H e' c step. unfold e', SetRates. rewrite H. cbn [negb].
  rewrite SetRates_frame_rate_unfold. fold c step.
  destruct ((c <? aFrameRate) || (aFrameRate <? c / 2))%Z eqn:E;
    cbn [fst snd mFrameRate mOMXReconfigure].
  - apply orb_true_iff in E. rewrite !Z.ltb_lt in E.
    split; [|split].
    + intros _. split; [reflexivity|]. split; [lia|].
      intros Hr. subst step. cbn [In].
      destruct (15 <=? aFrameRate)%Z eqn:E1;
        [|destruct (10 <=? aFrameRate)%Z eqn:E2;
          [|destruct (8 <=? aFrameRate)%Z eqn:E3]];
        rewrite ?Z.leb_le, ?Z.leb_gt in *; lia.
    + intros Hn. contradiction.
    + rewrite orb_true_iff, negb_true_iff, Z.eqb_neq. intuition congruence.
  - apply orb_false_iff in E. rewrite !Z.ltb_ge in E.
    split; [|split].
    + intros Hc. lia.
    + reflexivity.
    + cbn [orb]. intuition congruence.
Qed.

(** A reconfiguration asked for is carried out by the next [Encode],
    before the picture goes to the device, at the configured frame rate. *)
Lemma reconfigure_on_next_frame (idr : bool) (e : t) (f : VideoFrame)
    (aFrameTypes : option (list FrameType)) (env : EncodeEnv) :
  mOMX e = true -> mOMXReconfigure e = true ->
  exists w h b rest,
    snd (Encode idr e f aFrameTypes env)
    = ConfigureDirect w h (mFrameRate e) b :: rest.
Proof.
  intros Ho Hr. unfold Encode. rewrite Ho. cbn [negb].
  assert (H1 : mOMXReconfigure (Encode_geometry e f) = true
               /\ mFrameRate (Encode_geometry e f) = mFrameRate e).
  { unfold Encode_geometry. destruct (_ || _); split; auto. }
  destruct H1 as [H1 H2]. unfold Encode_configure. rewrite H1, orb_true_r.
  destruct (configure_failed env); cbn [snd].
  - rewrite H2. repeat eexists.
  - destruct (Encode_keyframe _ _ _ _) as [e3 calls'].
    destruct (Encode_submit _ _ _) as [[rc e4] calls''].
    cbn [snd app]. rewrite H2. repeat eexists.
Qed.

End LadderFacts.

(** With 30 frames per second configured, a request for 14 sets 20, not 15,
    the nearest rate of the ladder at or above 14. *)
Lemma SetRates_skips_nearest_rate :
  let e := sample_encoder 30 500 500 None in
  let e' := snd (fst (WebrtcGonkH264VideoEncoder.SetRates false e 500 14
                        false)) in
  WebrtcGonkH264VideoEncoder.mFrameRate e' = 20%Z
  /\ nearest_ladder_rate_at_or_above 14 = 15%Z
  /\ WebrtcGonkH264VideoEncoder.mFrameRate e'
     <> nearest_ladder_rate_at_or_above 14.
Proof. repeat split. discriminate. Qed.

Lemma SetRates_frame_rate_ladder_witness :
  let e := sample_encoder 30 500 500 None in
  let e' := snd (fst (WebrtcGonkH264VideoEncoder.SetRates false e 500 9
                        false)) in
  WebrtcGonkH264VideoEncoder.mOMX e = true
  /\ (9 < 30 / 2)%Z
  /\ WebrtcGonkH264VideoEncoder.mFrameRate e' = 15%Z
  /\ WebrtcGonkH264VideoEncoder.mOMXReconfigure e' = true.
Proof.
  split; [reflexivity|]. split; [reflexivity|].
  destruct (SetRates_frame_rate_ladder (sample_encoder 30 500 500 None)
              500 9 false eq_refl) as [H1 [_ H3]].
  split.
  - apply H1. right. reflexivity.
  - apply H3. left. vm_compute. discriminate.
Defined.

(** ** Release *)


(** Between [InitEncode] and [Release] nothing touches the device pointer
    or the reservation. *)
Lemma encoder_call_keeps_reservation (idr test : bool)
    (e : WebrtcGonkH264VideoEncoder.t) (c : EncoderCall) :
  WebrtcGonkH264VideoEncoder.mOMX (encoder_call idr test e c)
  = WebrtcGonkH264VideoEncoder.mOMX e
  /\ WebrtcGonkH264VideoEncoder.mReservation (encoder_call idr test e c)
     = WebrtcGonkH264VideoEncoder.mReservation e.
Proof.
  destruct c as [f ft env|b r failed|cb]; cbn [encoder_call].
  - unfold WebrtcGonkH264VideoEncoder.Encode.
    destruct (WebrtcGonkH264VideoEncoder.mOMX e) eqn:Ho; cbn [negb fst snd];
      [|auto].
    unfold WebrtcGonkH264VideoEncoder.Encode_configure,
      WebrtcGonkH264VideoEncoder.Encode_geometry.
    destruct (_ || _ || _ || _);
      cbn [WebrtcGonkH264VideoEncoder.mOMXConfigured
           WebrtcGonkH264VideoEncoder.mOMXReconfigure];
      (destruct (_ || _); [destruct (WebrtcGonkH264VideoEncoder.configure_failed env)|]);
      cbn [fst snd];
      try (unfold WebrtcGonkH264VideoEncoder.Encode_keyframe;
           destruct (WebrtcGonkH264VideoEncoder.key_frame_requested ft);
           [|destruct (_ && _);
             [destruct (WebrtcGonkH264VideoEncoder.bitrate_change_needs_IDR _ _ _)|]];
           unfold WebrtcGonkH264VideoEncoder.Encode_submit;
           destruct (WebrtcGonkH264VideoEncoder.encode_ok env);
           destruct idr);
      cbn; auto.
  - unfold WebrtcGonkH264VideoEncoder.SetRates.
    destruct (WebrtcGonkH264VideoEncoder.mOMX e) eqn:Ho; cbn [negb fst snd];
      [|auto].
    destruct (WebrtcGonkH264VideoEncoder.SetRates_frame_rate _ _ _).
    cbn. auto.
  - cbn. auto.
Qed.

Lemma encoder_run_keeps_reservation (idr test : bool)
    (calls : list EncoderCall) :
  forall e : WebrtcGonkH264VideoEncoder.t,
    WebrtcGonkH264VideoEncoder.mOMX (encoder_run idr test calls e)
    = WebrtcGonkH264VideoEncoder.mOMX e
    /\ WebrtcGonkH264VideoEncoder.mReservation (encoder_run idr test calls e)
       = WebrtcGonkH264VideoEncoder.mReservation e.
Proof.
  unfold encoder_run.
  induction calls as [|c calls IH]; intros e; [split; reflexivity|].
  cbn [fold_left].
  destruct (IH (encoder_call idr test e c)) as [H1 H2].
  destruct (encoder_call_keeps_reservation idr test e c) as [H3 H4].
  split; congruence.
Qed.









(** ** Decoder sequencing *)

Section DecoderFacts.

Import WebrtcGonkH264VideoDecoder.

Variable MakeAVCCodecSpecificData : list Z -> option (list Z).

(** C5, as the code has it: for an access unit that holds bytes, while no
    codec configuration has been submitted [Decode] submits nothing and
    returns an error when the extraction fails, and when it succeeds submits
    the configuration record and, once the device has taken it, the access
    unit, two submissions in this order; once the configuration has been
    submitted [Decode] submits the access unit alone, whatever the
    extraction would give; [Decode] and [InitDecode] never clear the flag,
    [Release] does. *)
Theorem decode_submits_config_first (d : t) (aInputImage : EncodedImage)
    (aRenderTimeMs : Z) (env : DecodeEnv) :
  _buffer aInputImage <> [] ->
  let r := Decode MakeAVCCodecSpecificData d aInputImage aRenderTimeMs env in
  let data := {| image := aInputImage; isCodecConfig := false;
                 renderTimeMs := aRenderTimeMs |} in
  (mCodecConfigSubmitted d = false ->
   forall csd, MakeAVCCodecSpecificData (_buffer aInputImage) = Some csd ->
   config_accepted env = true ->
   exists config,
     snd r = [config; data]
     /\ isCodecConfig config = true
     /\ _buffer (image config) = csd
     /\ mCodecConfigSubmitted (snd (fst r)) = true)
  /\ (mCodecConfigSubmitted d = false ->
      forall csd, MakeAVCCodecSpecificData (_buffer aInputImage) = Some csd ->
      config_accepted env = false ->
      exists config,
        r = (WEBRTC_VIDEO_CODEC_ERROR, d, [config])
        /\ isCodecConfig config = true)
  /\ (mCodecConfigSubmitted d = false ->
      MakeAVCCodecSpecificData (_buffer aInputImage) = None ->
      r = (WEBRTC_VIDEO_CODEC_ERROR, d, []))
  /\ (mCodecConfigSubmitted d = true ->
      snd r = [data] /\ snd (fst r) = d)
  /\ (forall granted configured,
        mCodecConfigSubmitted (snd (InitDecode d granted configured))
        = mCodecConfigSubmitted d)
  /\ mCodecConfigSubmitted (snd (Release d)) = false.
Proof.
  intros Hne r data. unfold r, Decode.
  destruct (_buffer aInputImage) as [|b bs] eqn:E; [congruence|].
  cbn [length Nat.eqb].
  split; [|split; [|split; [|split; [|split]]]].
  - intros Hf csd Hc Ha. rewrite Hf, Hc, Ha. cbn [negb fst snd app].
    eexists. split; [reflexivity|]. repeat split.
  - intros Hf csd Hc Ha. rewrite Hf, Hc, Ha. cbn [negb].
    eexists. split; reflexivity.
  - intros Hf Hc. rewrite Hf, Hc. reflexivity.
  - intros Hf. rewrite Hf. cbn [negb fst snd app]. split; reflexivity.
  - intros granted configured. unfold InitDecode, ReserveOMXCodec.
    destruct granted; cbn [negb]; reflexivity.
  - reflexivity.
Qed.

End DecoderFacts.

(** A decoder whose first access unit yields no configuration extracts
    again on the next call and submits configuration and data then; and a
    configuration the device rejects is the only submission of its call. *)
Lemma decode_extracts_until_submitted :
  let accept := {| WebrtcGonkH264VideoDecoder.config_accepted := true;
                   WebrtcGonkH264VideoDecoder.data_accepted := true |} in
  let reject := {| WebrtcGonkH264VideoDecoder.config_accepted := false;
                   WebrtcGonkH264VideoDecoder.data_accepted := true |} in
  let r1 := WebrtcGonkH264VideoDecoder.Decode sample_extract sample_decoder
              (sample_image sample_idr) 0 accept in
  let r2 := WebrtcGonkH264VideoDecoder.Decode sample_extract (snd (fst r1))
              (sample_image sample_sps_pps_idr) 0 accept in
  let r3 := WebrtcGonkH264VideoDecoder.Decode sample_extract sample_decoder
              (sample_image sample_sps_pps_idr) 0 reject in
  r1 = (WEBRTC_VIDEO_CODEC_ERROR, sample_decoder, [])
  /\ map WebrtcGonkH264VideoDecoder.isCodecConfig (snd r2) = [true; false]
  /\ sample_extract sample_sps_pps_idr = Some [1; 66; 0; 30]%Z
  /\ map WebrtcGonkH264VideoDecoder.isCodecConfig (snd r3) = [true]
  /\ fst (fst r3) = WEBRTC_VIDEO_CODEC_ERROR.
Proof. repeat split. Qed.

Lemma decode_submits_config_first_witness :
  let accept := {| WebrtcGonkH264VideoDecoder.config_accepted := true;
                   WebrtcGonkH264VideoDecoder.data_accepted := true |} in
  _buffer (sample_image sample_sps_pps_idr) <> []
  /\ exists config,
       snd (WebrtcGonkH264VideoDecoder.Decode sample_extract sample_decoder
              (sample_image sample_sps_pps_idr) 0 accept)
       = [config;
          {| WebrtcGonkH264VideoDecoder.image :=
               sample_image sample_sps_pps_idr;
             WebrtcGonkH264VideoDecoder.isCodecConfig := false;
             WebrtcGonkH264VideoDecoder.renderTimeMs := 0 |}]
       /\ WebrtcGonkH264VideoDecoder.isCodecConfig config = true.
Proof.
  assert (Hne : _buffer (sample_image sample_sps_pps_idr) <> [])
    by discriminate.
  split; [exact Hne|].
  destruct (decode_submits_config_first sample_extract sample_decoder
              (sample_image sample_sps_pps_idr) 0
              {| WebrtcGonkH264VideoDecoder.config_accepted := true;
                 WebrtcGonkH264VideoDecoder.data_accepted := true |} Hne)
    as [H _].
  destruct (H eq_refl _ eq_refl eq_refl) as [config [H1 [H2 _]]].
  exists config. split; [exact H1 | exact H2].
Defined.

(** ** The drain loop on sample outputs *)

(** A keyframe drained right after a buffer that held SPS, PPS and an IDR
    slice: the cached parameter sets go to the callback first, then the
    keyframe. *)
Lemma param_sets_prepended_to_keyframes_witness :
  let d := sample_drain false [] [] in
  let o1 := sample_output sample_sps_pps_idr 1000 1 in
  let o2 := sample_output sample_idr 2000 1 in
  let d1 := snd (fst (EncOutputDrain.DrainOutput no_frame d o1)) in
  EncOutputDrain.mCallback d = true
  /\ nals_of (EncOutputDrain.mParamSets d1) <> []
  /\ exists blob,
       snd (EncOutputDrain.DrainOutput no_frame d1 o2)
       = blob :: EncOutputDrain.send_nals
                   (EncOutputDrain.encoded_image o2 no_frame)
       /\ _buffer (EncOutputDrain.unit blob) = sample_sps_pps
       /\ EncOutputDrain.fragmentation blob
          = [ {| offset := 4; size := 2 |}; {| offset := 10; size := 2 |} ].
Proof.
  assert (Hn : nals_of
                 (EncOutputDrain.mParamSets
                    (snd (fst (EncOutputDrain.DrainOutput no_frame
                                 (sample_drain false [] [])
                                 (sample_output sample_sps_pps_idr 1000 1)))))
               <> []) by (vm_compute; discriminate).
  split; [reflexivity|]. split; [exact Hn|].
  destruct (param_sets_prepended_to_keyframes no_frame
              (sample_drain false [] [])
              (sample_output sample_sps_pps_idr 1000 1)
              (sample_output sample_idr 2000 1)
              eq_refl eq_refl ltac:(discriminate) eq_refl
              ltac:(discriminate)) as [H _].
  destruct (H eq_refl eq_refl) as [_ H'].
  destruct (H' Hn) as [blob [Hs [Hb [Hf _]]]].
  exists blob. split; [exact Hs|]. split; [exact Hb | exact Hf].
Defined.

(** A delta slice whose timestamp is not in the registry still reaches the
    callback. *)
Lemma unmatched_output_reaches_callback :
  let d := sample_drain false sample_sps_pps [sample_frame] in
  let o := sample_output sample_delta 5000 0 in
  Forall (fun f => mTimestampUs f <> EncOutputDrain.timeUs o)
    (EncOutputDrain.mInputFrames d)
  /\ map payload_of (snd (EncOutputDrain.DrainOutput no_frame d o))
     = [ (sample_delta, kVideoFrameDelta, [ {| offset := 4; size := 3 |} ]) ]
  /\ snd (EncOutputDrain.DrainOutput no_frame d o) <> [].
Proof.
  split; [|split].
  - repeat constructor. discriminate.
  - reflexivity.
  - discriminate.
Qed.

(** A buffer whose first NAL unit is a PPS is not flagged: [DrainOutput]
    returns true and leaves the cache as it was. *)
Lemma leading_PPS_is_not_flagged :
  let d := sample_drain false sample_sps_pps [] in
  let o := sample_output sample_pps_first 0 0 in
  starts_with kNALStartCode sample_pps_first = true
  /\ nal_type (byte_at sample_pps_first sizeof_kNALStartCode) = kNALTypePPS
  /\ IsParamSets sample_pps_first = false
  /\ fst (fst (EncOutputDrain.DrainOutput no_frame d o)) = true
  /\ EncOutputDrain.mParamSets
       (snd (fst (EncOutputDrain.DrainOutput no_frame d o)))
     = sample_sps_pps.
Proof. repeat split. Qed.

Lemma param_set_flag_is_leading_SPS_witness :
  let o := sample_output sample_sps_pps_idr 0 1 in
  EncOutputDrain.rv_failed o = false
  /\ (IsParamSets (EncOutputDrain.output o) = true
      <-> nal_type 103 = kNALTypeSPS).
Proof.
  split; [reflexivity|].
  exact (proj1 (param_set_flag_is_leading_SPS no_frame
                  (sample_drain false [] [])
                  (sample_output sample_sps_pps_idr 0 1) 103
                  [66; 0; 0; 0; 1; 104; 206; 0; 0; 0; 1; 101; 136; 132]%Z
                  eq_refl eq_refl)).
Defined.

(** * ShapeProperty.h *)

Section ShapePropertyFacts.

Import ShapeProperty.

Lemma make_bits (f s : Z) :
  (0 <= f < 256)%Z -> (0 <= s)%Z ->
  make f s = ((s mod 2 ^ 24) * 256 + f)%Z.
Proof.
  intros Hf Hs. unfold make, uint32, SlotShift, ShapePropertyFlags.toRaw.
  rewrite Z.shiftl_mul_pow2 by lia.
  change (2 ^ 32)%Z with (2 ^ 24 * 2 ^ 8)%Z.
  rewrite Z.mul_mod_distr_r by lia.
  change (2 ^ 8)%Z with 256%Z.
  assert (Hm : (0 <= s mod 2 ^ 24)%Z) by (apply Z.mod_pos_bound; lia).
  rewrite <- Z.lxor_lor, <- Z.add_nocarry_lxor; try reflexivity.
  all: apply Z.bits_inj'; intros n Hn; rewrite Z.land_spec, Z.bits_0;
    destruct (Z.lt_ge_cases n 8) as [Hlt|Hge].
  all: try (change 256%Z with (2 ^ 8)%Z; rewrite Z.mul_pow2_bits_low by lia;
            reflexivity).
  all: replace (Z.testbit f n) with false;
    [apply andb_false_r|].
  all: symmetry; apply Z.bits_above_log2; [lia|];
    destruct (Z.eq_dec f 0) as [->|Hnz]; [cbn; lia|];
    apply Z.log2_lt_pow2; [lia|];
    apply Z.lt_le_trans with (2 ^ 8)%Z; [cbn; lia|];
    apply Z.pow_le_mono_r; lia.
Qed.

Lemma flags_make (f s : Z) :
  (0 <= f < 256)%Z -> (0 <= s)%Z -> flags (make f s) = f.
Proof.
  intros Hf Hs. unfold flags, ShapePropertyFlags.fromRaw, FlagsMask.
  rewrite make_bits by assumption.
  change 255%Z with (Z.ones 8). rewrite Z.land_ones by lia.
  change (2 ^ 8)%Z with 256%Z.
  rewrite Z.add_comm, Z.mod_add by lia. apply Z.mod_small. lia.
Qed.

Lemma maybeSlot_make (f s : Z) :
  (0 <= f < 256)%Z -> (0 <= s)%Z ->
  maybeSlot (make f s) = (s mod 2 ^ 24)%Z.
Proof.
  intros Hf Hs. unfold maybeSlot, SlotShift.
  rewrite make_bits by assumption.
  rewrite Z.shiftr_div_pow2 by lia. change (2 ^ 8)%Z with 256%Z.
  rewrite Z.div_add_l by lia. rewrite Z.div_small by lia. lia.
Qed.

(** X1: The two assertions of the constructor: the flags always come back, the
    slot comes back exactly when it is at most [SHAPE_INVALID_SLOT]; a
    larger slot is cut to its low 24 bits. *)
Theorem ShapeProperty_round_trip (f s : Z) :
  (0 <= f < 256)%Z -> (0 <= s < 2 ^ 32)%Z ->
  flags (make f s) = f
  /\ maybeSlot (make f s) = (s mod 2 ^ 24)%Z
  /\ (maybeSlot (make f s) = s <-> (s <= SHAPE_INVALID_SLOT)%Z).
Proof.
  intros Hf Hs. split; [apply flags_make; lia|].
  split; [apply maybeSlot_make; lia|].
  rewrite maybeSlot_make by lia. unfold SHAPE_INVALID_SLOT. split.
  - intros H. pose proof (Z.mod_pos_bound s (2 ^ 24) ltac:(lia)). lia.
  - intros H. apply Z.mod_small. lia.
Qed.

(** X2: [operator==] on properties built from flags and slots in range holds
    exactly when both the flags and the slots agree; [operator!=] is its
    negation. *)
Theorem ShapeProperty_eqb_iff (f1 f2 s1 s2 : Z) :
  (0 <= f1 < 256)%Z -> (0 <= f2 < 256)%Z ->
  (0 <= s1 <= SHAPE_INVALID_SLOT)%Z -> (0 <= s2 <= SHAPE_INVALID_SLOT)%Z ->
  (eqb (make f1 s1) (make f2 s2) = true <-> f1 = f2 /\ s1 = s2)
  /\ (neqb (make f1 s1) (make f2 s2) = true <-> f1 <> f2 \/ s1 <> s2).
Proof.
  unfold SHAPE_INVALID_SLOT. intros H1 H2 H3 H4.
  assert (Hiff : make f1 s1 = make f2 s2 <-> f1 = f2 /\ s1 = s2).
  { split; [|intros [-> ->]; reflexivity].
    intros H. split.
    - rewrite <- (flags_make f1 s1), <- (flags_make f2 s2) by lia.
      now rewrite H.
    - apply (f_equal maybeSlot) in H.
      rewrite !maybeSlot_make, !Z.mod_small in H by lia. exact H. }
  unfold neqb, eqb. rewrite negb_true_iff, Z.eqb_eq, Z.eqb_neq, Hiff.
  split; [reflexivity|]. split.
  - intros H. destruct (Z.eq_dec f1 f2) as [->|Hf]; [|now left].
    right. intros ->. apply H. now split.
  - intros [H|H] [Ha Hb]; contradiction.
Qed.

(** X3: The attributes a property reports depend on its flags alone, whatever
    the slot: configurable and enumerable as flagged, writable only when
    the Writable flag is set on a property that is not an accessor. *)
Theorem propAttributes_of_flags (f s : Z) :
  (0 <= f < 256)%Z -> (0 <= s)%Z ->
  propAttributes (make f s)
  = {| attr_configurable := ShapePropertyFlags.configurable f;
       attr_enumerable := ShapePropertyFlags.enumerable f;
       attr_writable := negb (ShapePropertyFlags.isAccessorProperty f)
                        && ShapePropertyFlags.writable f |}
  /\ (ShapePropertyFlags.isAccessorProperty f = true ->
      attr_writable (propAttributes (make f s)) = false).
Proof.
  intros Hf Hs.
  unfold propAttributes, configurable, enumerable, isDataDescriptor, writable,
    ShapePropertyFlags.isDataDescriptor.
  rewrite flags_make by assumption.
  split; [reflexivity|]. cbn [attr_writable]. now intros ->.
Qed.

End ShapePropertyFacts.

Lemma ShapeProperty_round_trip_witness :
  (0 <= 7 < 256)%Z /\ (0 <= 5 < 2 ^ 32)%Z
  /\ ShapeProperty.flags (ShapeProperty.make 7%Z 5%Z) = 7%Z
  /\ ShapeProperty.maybeSlot (ShapeProperty.make 7%Z 5%Z) = 5%Z.
Proof.
  assert (Hf : (0 <= 7 < 256)%Z) by lia.
  assert (Hs : (0 <= 5 < 2 ^ 32)%Z) by lia.
  split; [exact Hf|]. split; [exact Hs|].
  destruct (ShapeProperty_round_trip 7%Z 5%Z Hf Hs) as [H1 [H2 _]].
  split; [exact H1 | exact H2].
Defined.

Lemma ShapeProperty_eqb_iff_witness :
  ShapeProperty.eqb (ShapeProperty.make 7%Z 5%Z) (ShapeProperty.make 7%Z 6%Z) = true
  <-> 7%Z = 7%Z /\ 5%Z = 6%Z.
Proof.
  exact (proj1 (ShapeProperty_eqb_iff 7%Z 7%Z 5%Z 6%Z
                  ltac:(lia) ltac:(lia)
                  ltac:(unfold SHAPE_INVALID_SLOT; lia)
                  ltac:(unfold SHAPE_INVALID_SLOT; lia))).
Defined.

Lemma propAttributes_of_flags_witness :
  attr_writable (ShapeProperty.propAttributes (ShapeProperty.make 12%Z 3%Z))
  = false.
Proof.
  exact (proj2 (propAttributes_of_flags 12%Z 3%Z ltac:(lia) ltac:(lia))
           eq_refl).
Defined.

(** * Further properties of WebrtcGonkH264VideoCodec.cpp *)

(** ** Bounds of the NAL helpers *)

Lemma spaced_upper (hi lo : nat) (marks : list nat) :
  spaced hi lo marks -> Forall (fun m => m + 4 <= hi) marks.
Proof. induction 1; constructor; assumption. Qed.

(** X4: [ParamSetLength] never exceeds the size it is given, so the copy into
    [mParamSets] stays inside the buffer, and it is positive on every
    buffer [IsParamSets] accepts, as the source asserts before the copy. *)
Theorem ParamSetLength_bounds (aData : list Z) :
  ParamSetLength aData <= length aData
  /\ (IsParamSets aData = true -> 0 < ParamSetLength aData).
Proof.
  unfold ParamSetLength. rewrite ParamSetLength_loop_spec by lia.
  pose proof (start_code_offsets_spaced aData 0) as Hsp. cbn [Nat.add] in Hsp.
  pose proof (spaced_upper _ _ _ Hsp) as Hup. rewrite Forall_forall in Hup.
  destruct (find _ _) as [m|] eqn:F.
  - apply find_some in F. destruct F as [Hin Hm].
    split; [specialize (Hup m Hin); lia|].
    intros Hp. destruct m as [|m]; [|lia]. exfalso.
    unfold is_SPS_or_PPS in Hm. unfold IsParamSets in Hp.
    cbn [Nat.add] in Hm. rewrite Hp in Hm. discriminate Hm.
  - split; [lia|]. intros Hp.
    destruct aData; [discriminate Hp|cbn [length]; lia].
Qed.

Lemma delimited_nals_within (hi lo : nat) (marks : list nat) :
  spaced hi lo marks ->
  Forall (fun u => 4 <= fst u /\ fst u + snd u <= hi)
    (delimited_nals marks hi).
Proof.
  induction 1 as [lo|lo m ms Hlo Hhi Hms IH]; [constructor|].
  cbn [delimited_nals]. constructor; [|exact IH].
  unfold sizeof_kNALStartCode. cbn [kNALStartCode length fst snd].
  inversion Hms as [lo'|lo' m2 ms2 Hlo2 Hhi2 Hms2]; subst; cbn [hd]; lia.
Qed.

(** X5: Every offset/size pair handed to the callback lies inside the buffer it
    describes, behind a start code (buffers shorter than 2^32 bytes). *)
Theorem fragments_within_buffer (buffer : list Z) :
  (Z.of_nat (length buffer) < 2 ^ 32)%Z ->
  Forall (fun e => (4 <= offset e)%Z /\ (0 <= size e)%Z
                   /\ (offset e + size e <= Z.of_nat (length buffer))%Z)
    (nals_of buffer).
Proof.
  intros Hlen. rewrite nals_of_spec by assumption. unfold spec_nals.
  pose proof (delimited_nals_within _ _ _
                (start_code_offsets_spaced buffer 0)) as H.
  cbn [Nat.add] in H. rewrite Forall_map.
  eapply Forall_impl; [|exact H].
  intros [o n]. unfold entry_of. cbn [fst snd offset size]. lia.
Qed.

Lemma ParamSetLength_bounds_witness :
  IsParamSets sample_sps_pps_idr = true
  /\ 0 < ParamSetLength sample_sps_pps_idr.
Proof.
  split; [reflexivity|].
  exact (proj2 (ParamSetLength_bounds sample_sps_pps_idr) eq_refl).
Defined.

Lemma fragments_within_buffer_witness :
  (Z.of_nat (length sample_sps_pps_idr) < 2 ^ 32)%Z
  /\ Forall (fun e => (4 <= offset e)%Z /\ (0 <= size e)%Z
                      /\ (offset e + size e
                          <= Z.of_nat (length sample_sps_pps_idr))%Z)
       (nals_of sample_sps_pps_idr).
Proof.
  assert (H : (Z.of_nat (length sample_sps_pps_idr) < 2 ^ 32)%Z)
    by (vm_compute; reflexivity).
  split; [exact H|]. exact (fragments_within_buffer sample_sps_pps_idr H).
Defined.

(** ** What one turn of the drain hands to the callback *)

Section DrainDeliveries.

Import EncOutputDrain.

Variable absent_frame : EncodedFrame.

Lemma send_nals_all (img : EncodedImage) :
  Forall (fun x => fragmentation x <> []
                   /\ _completeFrame (unit x) = true
                   /\ _frameType (unit x) = _frameType img
                   /\ _buffer (unit x) = _buffer img)
    (send_nals img)
  /\ length (send_nals img) <= 1.
Proof.
  unfold send_nals. destruct (nals_of (_buffer img)) as [|e es] eqn:E.
  - cbn. split; [constructor|lia].
  - cbn [length Nat.ltb Nat.leb]. split; [|cbn; lia].
    constructor; [|constructor]. cbn. repeat split. discriminate.
Qed.

(** X6: One turn of the drain calls the callback at most twice; every call
    carries a non-empty fragmentation, a complete frame, the frame type of
    the drained output (key when it is flagged parameter-set or keyframe,
    delta otherwise) and either the drained bytes or the cache as it was
    before the turn; nothing is delivered when the device failed, gave no
    bytes, or no callback is set. *)
Theorem DrainOutput_deliveries (d : t) (o : EncodedOutput) :
  let sent := snd (DrainOutput absent_frame d o) in
  length sent <= 2
  /\ Forall (fun x =>
               fragmentation x <> []
               /\ _completeFrame (unit x) = true
               /\ _frameType (unit x)
                  = (if IsParamSets (output o) || isIFrame_of (flags o)
                     then kVideoFrameKey else kVideoFrameDelta)
               /\ (_buffer (unit x) = output o
                   \/ _buffer (unit x) = mParamSets d))
       sent
  /\ (sent <> [] ->
      mCallback d = true /\ rv_failed o = false /\ output o <> []).
Proof.
  unfold DrainOutput.
  destruct (rv_failed o); [cbn; repeat split; auto; congruence|].
  destruct (output o) as [|b bs] eqn:Eo;
    [cbn; repeat split; auto; congruence|].
  cbn [length Nat.eqb].
  destruct (mCallback d); [|cbn; repeat split; auto; congruence].
  destruct (Pop absent_frame (timeUs o) (mInputFrames d)) as [f frames].
  cbn [snd]. unfold SendEncodedDataToCallback.
  set (enc := encoded_image o f).
  destruct (send_nals_all enc) as [Hown Hown1].
  destruct (send_nals_all (prepend_image (mParamSets d) enc)) as [Hpre Hpre1].
  assert (Hb : _buffer enc = b :: bs) by (unfold enc, encoded_image; cbn; exact Eo).
  assert (Ht : _frameType enc
               = if IsParamSets (b :: bs) || isIFrame_of (flags o)
                 then kVideoFrameKey else kVideoFrameDelta)
    by (unfold enc, encoded_image; cbn; now rewrite Eo).
  split; [|split].
  - rewrite length_app. destruct (_ && _ && _); cbn [length]; lia.
  - apply Forall_app. split.
    + destruct (_ && _ && _); [|constructor].
      eapply Forall_impl; [|exact Hpre]. cbn beta.
      intros x [H1 [H2 [H3 H4]]].
      unfold prepend_image in H3, H4. cbn [_frameType _buffer] in H3, H4.
      rewrite H3, H4, Ht. auto.
    + eapply Forall_impl; [|exact Hown]. cbn beta.
      intros x [H1 [H2 [H3 H4]]]. rewrite H3, H4, Ht, Hb. auto.
  - intros _. repeat split. discriminate.
Qed.

End DrainDeliveries.

Lemma DrainOutput_deliveries_witness :
  let d := sample_drain false sample_sps_pps [] in
  let o := sample_output sample_idr 0 1 in
  snd (EncOutputDrain.DrainOutput no_frame d o) <> []
  /\ EncOutputDrain.mCallback d = true.
Proof.
  assert (H : snd (EncOutputDrain.DrainOutput no_frame
                     (sample_drain false sample_sps_pps [])
                     (sample_output sample_idr 0 1)) <> [])
    by (vm_compute; discriminate).
  split; [exact H|].
  destruct (DrainOutput_deliveries no_frame
              (sample_drain false sample_sps_pps [])
              (sample_output sample_idr 0 1)) as [_ [_ H3]].
  exact (proj1 (H3 H)).
Defined.

(** ** Encode *)

Section EncodeFacts.

Import WebrtcGonkH264VideoEncoder.

Variable OMX_IDR_NEEDED_FOR_BITRATE : bool.

(** What the geometry test of lines 274-279 leaves behind. *)
Lemma Encode_geometry_fields (e : t) (f : VideoFrame) :
  let e1 := Encode_geometry e f in
  mOMX e1 = mOMX e /\ mCallback e1 = mCallback e
  /\ mWidth e1 = uint32 (frame_width f)
  /\ mHeight e1 = uint32 (frame_height f)
  /\ mFrameRate e1 = mFrameRate e /\ mBitRateKbps e1 = mBitRateKbps e
  /\ mOMXConfigured e1 = mOMXConfigured e
  /\ mOMXReconfigure e1 = mOMXReconfigure e || negb (same_geometry e f)
  /\ mReservation e1 = mReservation e /\ mOutputDrain e1 = mOutputDrain e.
Proof.
  unfold Encode_geometry, same_geometry.
  destruct (frame_width f <? 0)%Z; cbn [negb andb orb];
    [rewrite orb_true_r; repeat split|].
  destruct (Z.eqb_spec (uint32 (frame_width f)) (mWidth e)) as [Hw|Hw];
    cbn [negb andb orb]; [|rewrite orb_true_r; repeat split].
  destruct (frame_height f <? 0)%Z; cbn [negb andb orb];
    [rewrite orb_true_r; repeat split|].
  destruct (Z.eqb_spec (uint32 (frame_height f)) (mHeight e)) as [Hh|Hh];
    cbn [negb andb orb]; [|rewrite orb_true_r; repeat split].
  rewrite orb_false_r. repeat split; congruence.
Qed.

(** The keyframe block touches nothing but the keyframe budget and asks
    for at most one IDR. *)
Lemma Encode_keyframe_fields (e : t) (aFrameTypes : option (list FrameType))
    (now : Z) :
  let k := Encode_keyframe OMX_IDR_NEEDED_FOR_BITRATE e aFrameTypes now in
  (mOMX (fst k) = mOMX e /\ mCallback (fst k) = mCallback e
   /\ mWidth (fst k) = mWidth e /\ mHeight (fst k) = mHeight e
   /\ mFrameRate (fst k) = mFrameRate e
   /\ mBitRateKbps (fst k) = mBitRateKbps e
   /\ mOMXConfigured (fst k) = mOMXConfigured e
   /\ mOMXReconfigure (fst k) = mOMXReconfigure e
   /\ mReservation (fst k) = mReservation e
   /\ mOutputDrain (fst k) = mOutputDrain e)
  /\ (snd k = [] \/ snd k = [RequestIDRFrame])
  /\ (key_frame_requested aFrameTypes = true -> snd k = [RequestIDRFrame]).
Proof.
  unfold Encode_keyframe.
  destruct (key_frame_requested aFrameTypes).
  - destruct OMX_IDR_NEEDED_FOR_BITRATE; cbn; repeat split; auto.
  - destruct (_ && _); [|cbn; repeat split; auto; discriminate].
    destruct (bitrate_change_needs_IDR _ _ _); cbn; repeat split; auto;
      discriminate.
Qed.

(** The picture always goes to the device; it enters the registry only
    when the device takes it. *)
Lemma Encode_submit_fields (e : t) (f : VideoFrame) (env : EncodeEnv) :
  let s := Encode_submit e f env in
  let timestampUs := Z.quot (unwrapped env * 1000) 90 in
  (mOMX (snd (fst s)) = mOMX e /\ mCallback (snd (fst s)) = mCallback e
   /\ mWidth (snd (fst s)) = mWidth e /\ mHeight (snd (fst s)) = mHeight e
   /\ mFrameRate (snd (fst s)) = mFrameRate e
   /\ mBitRateKbps (snd (fst s)) = mBitRateKbps e
   /\ mBitRateAtLastIDR (snd (fst s)) = mBitRateAtLastIDR e
   /\ mLastIDRTime (snd (fst s)) = mLastIDRTime e
   /\ mOMXConfigured (snd (fst s)) = mOMXConfigured e
   /\ mOMXReconfigure (snd (fst s)) = mOMXReconfigure e
   /\ mReservation (snd (fst s)) = mReservation e)
  /\ snd s = [OMXEncode (frame_width f) (frame_height f) timestampUs]
  /\ fst (fst s) = (if encode_ok env then WEBRTC_VIDEO_CODEC_OK
                    else WEBRTC_VIDEO_CODEC_ERROR)
  /\ mOutputDrain (snd (fst s))
     = (if encode_ok env
        then Some (EncOutputDrain.QueueInput
                     (Build_EncodedFrame (mWidth e) (mHeight e) (timestamp f)
                        timestampUs (render_time_ms f))
                     match mOutputDrain e with
                     | None => EncOutputDrain.new (mCallback e)
                     | Some d => d
                     end)
        else mOutputDrain e).
Proof.
  unfold Encode_submit. destruct (encode_ok env); cbn; repeat split.
Qed.

(** [Encode] on an encoder with a device, as the sequence of its blocks. *)
Lemma Encode_blocks (e : t) (f : VideoFrame)
    (aFrameTypes : option (list FrameType)) (env : EncodeEnv) :
  mOMX e = true ->
  let e1 := Encode_geometry e f in
  Encode OMX_IDR_NEEDED_FOR_BITRATE e f aFrameTypes env
  = if must_configure e f && configure_failed env
    then (WEBRTC_VIDEO_CODEC_ERROR, with_configuration e1 false false,
          [configure_call e f])
    else
      let e2 :=
        if must_configure e f
        then (if OMX_IDR_NEEDED_FOR_BITRATE
              then with_IDR_state (with_configuration e1 true false)
                     (Some (now_configured env)) (mBitRateKbps e)
              else with_configuration e1 true false)
        else e1 in
      let k := Encode_keyframe OMX_IDR_NEEDED_FOR_BITRATE e2 aFrameTypes
                 (now_keyframe env) in
      let s := Encode_submit (fst k) f env in
      (fst (fst s), snd (fst s),
       (if must_configure e f then [configure_call e f] else [])
       ++ snd k ++ snd s).
Proof.
  intros Ho e1. unfold Encode. rewrite Ho. cbn [negb]. fold e1.
  destruct (Encode_geometry_fields e f)
    as [_ [_ [Hw [Hh [Hr [Hb [Hc [Hre _]]]]]]]].
  fold e1 in Hw, Hh, Hr, Hb, Hc, Hre.
  assert (Hm : negb (mOMXConfigured e1) || mOMXReconfigure e1
               = must_configure e f).
  { unfold must_configure. rewrite Hc, Hre. now rewrite orb_assoc. }
  unfold Encode_configure, configure_call. rewrite Hm, Hw, Hh, Hr, Hb.
  destruct (must_configure e f); cbn [andb].
  - destruct (configure_failed env); [reflexivity|].
    cbn [with_configuration mBitRateKbps]. rewrite Hb.
    destruct (Encode_keyframe _ _ _ _) as [e3 c3].
    destruct (Encode_submit _ _ _) as [[rc e4] c4]. reflexivity.
  - destruct (Encode_keyframe _ _ _ _) as [e3 c3].
    destruct (Encode_submit _ _ _) as [[rc e4] c4]. reflexivity.
Qed.

(** [Encode] when the configuration, if one is needed, succeeds. *)
Lemma Encode_result (e : t) (f : VideoFrame)
    (aFrameTypes : option (list FrameType)) (env : EncodeEnv) :
  mOMX e = true ->
  must_configure e f && configure_failed env = false ->
  let r := Encode OMX_IDR_NEEDED_FOR_BITRATE e f aFrameTypes env in
  let e' := snd (fst r) in
  let timestampUs := Z.quot (unwrapped env * 1000) 90 in
  fst (fst r) = (if encode_ok env then WEBRTC_VIDEO_CODEC_OK
                 else WEBRTC_VIDEO_CODEC_ERROR)
  /\ (exists idr_calls,
        snd r = (if must_configure e f then [configure_call e f] else [])
                ++ idr_calls
                ++ [OMXEncode (frame_width f) (frame_height f) timestampUs]
        /\ (idr_calls = [] \/ idr_calls = [RequestIDRFrame])
        /\ (key_frame_requested aFrameTypes = true ->
            idr_calls = [RequestIDRFrame])
        /\ (key_frame_requested aFrameTypes = false ->
            OMX_IDR_NEEDED_FOR_BITRATE = false -> idr_calls = []))
  /\ mOMX e' = true /\ mCallback e' = mCallback e
  /\ mWidth e' = uint32 (frame_width f)
  /\ mHeight e' = uint32 (frame_height f)
  /\ mFrameRate e' = mFrameRate e /\ mBitRateKbps e' = mBitRateKbps e
  /\ mOMXConfigured e' = true /\ mOMXReconfigure e' = false
  /\ mOutputDrain e'
     = (if encode_ok env
        then Some (EncOutputDrain.QueueInput
                     (Build_EncodedFrame (uint32 (frame_width f))
                        (uint32 (frame_height f)) (timestamp f) timestampUs
                        (render_time_ms f))
                     match mOutputDrain e with
                     | None => EncOutputDrain.new (mCallback e)
                     | Some d => d
                     end)
        else mOutputDrain e).
Proof.
  intros Ho Hcf r e' timestampUs. unfold e', r.
  rewrite Encode_blocks by assumption. rewrite Hcf. cbv zeta.
  destruct (Encode_geometry_fields e f)
    as [G1 [G2 [G3 [G4 [G5 [G6 [G7 [G8 [G9 G10]]]]]]]]].
  set (e1 := Encode_geometry e f) in *.
  set (e2 := if must_configure e f then _ else e1).
  assert (H2 : mOMX e2 = true /\ mCallback e2 = mCallback e
               /\ mWidth e2 = uint32 (frame_width f)
               /\ mHeight e2 = uint32 (frame_height f)
               /\ mFrameRate e2 = mFrameRate e
               /\ mBitRateKbps e2 = mBitRateKbps e
               /\ mOMXConfigured e2 = true /\ mOMXReconfigure e2 = false
               /\ mOutputDrain e2 = mOutputDrain e).
  { unfold e2. destruct (must_configure e f) eqn:Hm.
    - destruct OMX_IDR_NEEDED_FOR_BITRATE; cbn; repeat split; congruence.
    - unfold must_configure in Hm.
      apply orb_false_iff in Hm. destruct Hm as [Hm Hs].
      apply orb_false_iff in Hm. destruct Hm as [Hc Hr].
      apply negb_false_iff in Hc.
      rewrite Hr, Hs in G8. cbn in G8. repeat split; congruence. }
  destruct H2 as [A1 [A2 [A3 [A4 [A5 [A6 [A7 [A8 A9]]]]]]]].
  destruct (Encode_keyframe_fields e2 aFrameTypes (now_keyframe env))
    as [[K1 [K2 [K3 [K4 [K5 [K6 [K7 [K8 [_ K10]]]]]]]]] [Kc Kk]].
  set (k := Encode_keyframe OMX_IDR_NEEDED_FOR_BITRATE e2 aFrameTypes
              (now_keyframe env)) in *.
  destruct (Encode_submit_fields (fst k) f env)
    as [[S1 [S2 [S3 [S4 [S5 [S6 [_ [_ [S9 [S10 _]]]]]]]]]] [Sc [Src Sd]]].
  cbn [fst snd]. split; [exact Src|]. split.
  - exists (snd k). rewrite Sc. split; [reflexivity|]. split; [exact Kc|].
    split; [exact Kk|]. intros Hk Hidr. unfold k, Encode_keyframe.
    rewrite Hk, Hidr. reflexivity.
  - rewrite Sd, K10, K2, K3, K4, A9, A2, A3, A4.
    repeat split; congruence.
Qed.

(** X7: A picture is preceded by exactly one [ConfigureDirect], with the
    geometry of the picture and the rates the encoder holds, when the device
    is not configured yet, a reconfiguration is pending or the geometry of
    the picture differs from the encoder's, and by none otherwise; after a
    successful [Encode] the encoder is configured for the geometry of the
    picture and nothing is pending. *)
Theorem Encode_configures_once (e : t) (f : VideoFrame)
    (aFrameTypes : option (list FrameType)) (env : EncodeEnv) :
  mOMX e = true ->
  let r := Encode OMX_IDR_NEEDED_FOR_BITRATE e f aFrameTypes env in
  filter is_ConfigureDirect (snd r)
  = (if must_configure e f then [configure_call e f] else [])
  /\ (must_configure e f = true ->
      hd_error (snd r) = Some (configure_call e f))
  /\ (fst (fst r) = WEBRTC_VIDEO_CODEC_OK ->
      mOMXConfigured (snd (fst r)) = true
      /\ mOMXReconfigure (snd (fst r)) = false
      /\ mWidth (snd (fst r)) = uint32 (frame_width f)
      /\ mHeight (snd (fst r)) = uint32 (frame_height f)).
Proof.
  intros Ho r. unfold r.
  destruct (must_configure e f && configure_failed env) eqn:Hcf.
  - apply andb_true_iff in Hcf. destruct Hcf as [Hm Hf].
    rewrite Encode_blocks by assumption. rewrite Hm, Hf. cbn [andb fst snd].
    split; [reflexivity|]. split; [reflexivity|]. discriminate.
  - destruct (Encode_result e f aFrameTypes env Ho Hcf)
      as [_ [[ic [Hc [Hic _]]] [_ [_ [Hw [Hh [_ [_ [Hcfg [Hre _]]]]]]]]]].
    rewrite Hc. split; [|split].
    + rewrite !filter_app.
      assert (Hi : filter is_ConfigureDirect ic = [])
        by (destruct Hic as [->| ->]; reflexivity).
      rewrite Hi. destruct (must_configure e f); reflexivity.
    + intros ->. reflexivity.
    + intros _. auto.
Qed.

(** X8: When the device rejects the configuration, [Encode] returns the error,
    the picture is neither sent to the device nor queued, and the encoder
    is left unconfigured: the next [Encode] starts with a new
    [ConfigureDirect] for its picture. *)
Theorem Encode_configuration_failure (e : t) (f f' : VideoFrame)
    (aFrameTypes aFrameTypes' : option (list FrameType))
    (env env' : EncodeEnv) :
  mOMX e = true -> must_configure e f = true ->
  configure_failed env = true ->
  let r := Encode OMX_IDR_NEEDED_FOR_BITRATE e f aFrameTypes env in
  fst (fst r) = WEBRTC_VIDEO_CODEC_ERROR
  /\ snd r = [configure_call e f]
  /\ mOutputDrain (snd (fst r)) = mOutputDrain e
  /\ hd_error (snd (Encode OMX_IDR_NEEDED_FOR_BITRATE (snd (fst r)) f'
                      aFrameTypes' env'))
     = Some (configure_call e f').
Proof.
  intros Ho Hm Hf r. unfold r.
  rewrite Encode_blocks by assumption. rewrite Hm, Hf. cbn [andb fst snd].
  destruct (Encode_geometry_fields e f)
    as [G1 [_ [_ [_ [G5 [G6 [_ [_ [_ G10]]]]]]]]].
  set (e1 := Encode_geometry e f) in *.
  split; [reflexivity|]. split; [reflexivity|]. split; [exact G10|].
  assert (Ho' : mOMX (with_configuration e1 false false) = true)
    by (cbn; congruence).
  assert (Hm' : must_configure (with_configuration e1 false false) f' = true)
    by reflexivity.
  rewrite Encode_blocks by assumption. rewrite Hm'.
  assert (Hc : configure_call (with_configuration e1 false false) f'
               = configure_call e f')
    by (unfold configure_call; cbn; now rewrite G5, G6).
  rewrite Hc. destruct (configure_failed env'); reflexivity.
Qed.

(** X9: A picture the device takes is queued exactly once, behind the frames
    already waiting, with the timestamp that went to the device, the
    caller's RTP timestamp and render time and the geometry of the picture;
    the drain is started on the first such picture with the callback the
    encoder holds then.  A picture the device does not take leaves the
    registry as it was. *)
Theorem Encode_queues_frame (e : t) (f : VideoFrame)
    (aFrameTypes : option (list FrameType)) (env : EncodeEnv) :
  mOMX e = true ->
  let r := Encode OMX_IDR_NEEDED_FOR_BITRATE e f aFrameTypes env in
  let timestampUs := Z.quot (unwrapped env * 1000) 90 in
  (fst (fst r) = WEBRTC_VIDEO_CODEC_OK ->
   queued_frames (snd (fst r))
   = queued_frames e
     ++ [Build_EncodedFrame (uint32 (frame_width f))
           (uint32 (frame_height f)) (timestamp f) timestampUs
           (render_time_ms f)]
   /\ (exists calls,
         snd r = calls ++ [OMXEncode (frame_width f) (frame_height f)
                             timestampUs])
   /\ (mOutputDrain e = None ->
       exists d, mOutputDrain (snd (fst r)) = Some d
                 /\ EncOutputDrain.mCallback d = mCallback e
                 /\ EncOutputDrain.mParamSets d = []
                 /\ EncOutputDrain.mIsPrevFrameParamSets d = false))
  /\ (fst (fst r) <> WEBRTC_VIDEO_CODEC_OK ->
      mOutputDrain (snd (fst r)) = mOutputDrain e).
Proof.
  intros Ho r timestampUs. unfold r.
  destruct (must_configure e f && configure_failed env) eqn:Hcf.
  - apply andb_true_iff in Hcf. destruct Hcf as [Hm Hf].
    rewrite Encode_blocks by assumption. rewrite Hm, Hf. cbn [andb fst snd].
    split; [discriminate|]. intros _.
    now destruct (Encode_geometry_fields e f)
      as [_ [_ [_ [_ [_ [_ [_ [_ [_ G10]]]]]]]]].
  - destruct (Encode_result e f aFrameTypes env Ho Hcf)
      as [Hrc [[ic [Hc _]] [_ [_ [_ [_ [_ [_ [_ [_ Hd]]]]]]]]]].
    rewrite Hrc. destruct (encode_ok env).
    + split; [|congruence]. intros _. unfold queued_frames. rewrite Hd.
      fold timestampUs. split; [|split].
      * destruct (mOutputDrain e); reflexivity.
      * rewrite Hc, app_assoc. eexists. reflexivity.
      * intros ->. eexists. split; [reflexivity|]. repeat split.
    + split; [discriminate|]. intros _. exact Hd.
Qed.

(** X10: A keyframe asked for by the caller reaches the device as one
    [RequestIDRFrame] right before the picture, in both builds, and with the
    bitrate policy compiled in restarts the keyframe budget at the current
    bitrate; without the policy and without a request no IDR is asked
    for. *)
Theorem Encode_requests_IDR (e : t) (f : VideoFrame)
    (aFrameTypes : option (list FrameType)) (env : EncodeEnv) :
  mOMX e = true ->
  must_configure e f && configure_failed env = false ->
  let r := Encode OMX_IDR_NEEDED_FOR_BITRATE e f aFrameTypes env in
  let timestampUs := Z.quot (unwrapped env * 1000) 90 in
  (key_frame_requested aFrameTypes = true ->
   snd r = (if must_configure e f then [configure_call e f] else [])
           ++ [RequestIDRFrame;
               OMXEncode (frame_width f) (frame_height f) timestampUs]
   /\ (OMX_IDR_NEEDED_FOR_BITRATE = true ->
       mBitRateAtLastIDR (snd (fst r)) = mBitRateKbps e
       /\ mLastIDRTime (snd (fst r)) = Some (now_keyframe env)))
  /\ (key_frame_requested aFrameTypes = false ->
      OMX_IDR_NEEDED_FOR_BITRATE = false ->
      filter is_RequestIDRFrame (snd r) = []).
Proof.
  intros Ho Hcf r timestampUs. unfold r.
  destruct (Encode_result e f aFrameTypes env Ho Hcf)
    as [_ [[ic [Hc [_ [Hk Hn]]]] _]].
  split.
  - intros Hreq. rewrite Hc, (Hk Hreq). split; [reflexivity|].
    intros Hidr. rewrite Encode_blocks by assumption. rewrite Hcf.
    cbv zeta.
    destruct (Encode_geometry_fields e f)
      as [_ [_ [_ [_ [_ [G6 _]]]]]].
    set (e2 := if must_configure e f then _ else Encode_geometry e f).
    assert (Hb : mBitRateKbps e2 = mBitRateKbps e).
    { unfold e2. destruct (must_configure e f); [|exact G6].
      rewrite Hidr. cbn. exact G6. }
    destruct (Encode_submit_fields
                (fst (Encode_keyframe OMX_IDR_NEEDED_FOR_BITRATE e2
                        aFrameTypes (now_keyframe env))) f env)
      as [[_ [_ [_ [_ [_ [_ [S7 [S8 _]]]]]]]] _].
    cbn [fst snd]. rewrite S7, S8. unfold Encode_keyframe.
    rewrite Hreq, Hidr. cbn. split; [exact Hb|reflexivity].
  - intros Hreq Hidr. rewrite Hc, (Hn Hreq Hidr), !filter_app.
    destruct (must_configure e f); reflexivity.
Qed.

End EncodeFacts.

(** ** The encoder across calls *)

Lemma encoder_call_keeps_drain (idr test : bool)
    (e : WebrtcGonkH264VideoEncoder.t) (c : EncoderCall)
    (d : EncOutputDrain.t) :
  WebrtcGonkH264VideoEncoder.mOutputDrain e = Some d ->
  exists d' more,
    WebrtcGonkH264VideoEncoder.mOutputDrain (encoder_call idr test e c)
    = Some d'
    /\ EncOutputDrain.mCallback d' = EncOutputDrain.mCallback d
    /\ EncOutputDrain.mIsPrevFrameParamSets d'
       = EncOutputDrain.mIsPrevFrameParamSets d
    /\ EncOutputDrain.mParamSets d' = EncOutputDrain.mParamSets d
    /\ EncOutputDrain.mInputFrames d'
       = EncOutputDrain.mInputFrames d ++ more.
Proof.
  intros Hd.
  assert (Hsame : forall e',
             WebrtcGonkH264VideoEncoder.mOutputDrain e' = Some d ->
             exists d' more,
               WebrtcGonkH264VideoEncoder.mOutputDrain e' = Some d'
               /\ EncOutputDrain.mCallback d' = EncOutputDrain.mCallback d
               /\ EncOutputDrain.mIsPrevFrameParamSets d'
                  = EncOutputDrain.mIsPrevFrameParamSets d
               /\ EncOutputDrain.mParamSets d' = EncOutputDrain.mParamSets d
               /\ EncOutputDrain.mInputFrames d'
                  = EncOutputDrain.mInputFrames d ++ more).
  { intros e' He'. exists d, []. rewrite app_nil_r. auto. }
  destruct c as [f ft env|b r failed|cb]; cbn [encoder_call].
  - destruct (WebrtcGonkH264VideoEncoder.mOMX e) eqn:Ho.
    + destruct (must_configure e f
                && WebrtcGonkH264VideoEncoder.configure_failed env) eqn:Hcf.
      * apply Hsame. rewrite Encode_blocks by assumption. rewrite Hcf.
        cbn [fst snd].
        destruct (Encode_geometry_fields e f)
          as [_ [_ [_ [_ [_ [_ [_ [_ [_ G10]]]]]]]]].
        cbn. congruence.
      * destruct (Encode_result idr e f ft env Ho Hcf)
          as [_ [_ [_ [_ [_ [_ [_ [_ [_ [_ Hq]]]]]]]]]].
        destruct (WebrtcGonkH264VideoEncoder.encode_ok env);
          [|apply Hsame; congruence].
        rewrite Hq, Hd.
        eexists. eexists. split; [reflexivity|]. repeat split.
    + apply Hsame. unfold WebrtcGonkH264VideoEncoder.Encode. now rewrite Ho.
  - apply Hsame. unfold WebrtcGonkH264VideoEncoder.SetRates.
    destruct (WebrtcGonkH264VideoEncoder.mOMX e); cbn [negb fst snd];
      [|exact Hd].
    destruct (WebrtcGonkH264VideoEncoder.SetRates_frame_rate _ _ _).
    exact Hd.
  - apply Hsame. exact Hd.
Qed.

(** X11: Once the drain is started, no [Encode], [SetRates] or
    [RegisterEncodeCompleteCallback] replaces it or changes its callback,
    its parameter-set cache or its flag; the registry only grows at its
    end.  A callback registered after the first picture never reaches the
    drain. *)
Theorem encoder_run_keeps_drain (idr test : bool) (calls : list EncoderCall) :
  forall (e : WebrtcGonkH264VideoEncoder.t) (d : EncOutputDrain.t),
    WebrtcGonkH264VideoEncoder.mOutputDrain e = Some d ->
    exists d' more,
      WebrtcGonkH264VideoEncoder.mOutputDrain (encoder_run idr test calls e)
      = Some d'
      /\ EncOutputDrain.mCallback d' = EncOutputDrain.mCallback d
      /\ EncOutputDrain.mIsPrevFrameParamSets d'
         = EncOutputDrain.mIsPrevFrameParamSets d
      /\ EncOutputDrain.mParamSets d' = EncOutputDrain.mParamSets d
      /\ EncOutputDrain.mInputFrames d'
         = EncOutputDrain.mInputFrames d ++ more.
Proof.
  unfold encoder_run.
  induction calls as [|c calls IH]; intros e d Hd.
  - exists d, []. rewrite app_nil_r. auto.
  - cbn [fold_left].
    destruct (encoder_call_keeps_drain idr test e c d Hd)
      as [d1 [m1 [H1 [H2 [H3 [H4 H5]]]]]].
    destruct (IH _ d1 H1) as [d2 [m2 [I1 [I2 [I3 [I4 I5]]]]]].
    exists d2, (m1 ++ m2). split; [exact I1|].
    rewrite I2, I3, I4, I5, H5, app_assoc. auto.
Qed.

(** X12: After [Release] the encoder has no device: [Encode] and [SetRates]
    return their errors and touch nothing; an [InitEncode] that follows
    brings the device back unconfigured, so that the first picture starts
    with a [ConfigureDirect] at the rates of the new settings. *)
Theorem Release_then_use (idr test : bool)
    (e : WebrtcGonkH264VideoEncoder.t)
    (f : WebrtcGonkH264VideoEncoder.VideoFrame)
    (aFrameTypes : option (list FrameType))
    (env : WebrtcGonkH264VideoEncoder.EncodeEnv)
    (aBitRateKbps aFrameRate : Z) (set_bitrate_failed : bool)
    (aCodecSettings : WebrtcGonkH264VideoEncoder.VideoCodec) :
  let e' := snd (WebrtcGonkH264VideoEncoder.Release e) in
  let i := WebrtcGonkH264VideoEncoder.InitEncode e' aCodecSettings true true in
  WebrtcGonkH264VideoEncoder.Encode idr e' f aFrameTypes env
  = (WEBRTC_VIDEO_CODEC_ERROR, e', [])
  /\ WebrtcGonkH264VideoEncoder.SetRates test e' aBitRateKbps aFrameRate
       set_bitrate_failed
     = (WEBRTC_VIDEO_CODEC_UNINITIALIZED, e', [])
  /\ fst i = WEBRTC_VIDEO_CODEC_OK
  /\ hd_error (snd (WebrtcGonkH264VideoEncoder.Encode idr (snd i) f
                      aFrameTypes env))
     = Some (WebrtcGonkH264VideoEncoder.ConfigureDirect
               (uint32 (WebrtcGonkH264VideoEncoder.frame_width f))
               (uint32 (WebrtcGonkH264VideoEncoder.frame_height f))
               (WebrtcGonkH264VideoEncoder.maxFramerate aCodecSettings)
               (uint32 (WebrtcGonkH264VideoEncoder.startBitrate
                          aCodecSettings * 1000))).
Proof.
  intros e' i. split; [reflexivity|]. split; [reflexivity|].
  split; [reflexivity|].
  assert (Ho : WebrtcGonkH264VideoEncoder.mOMX (snd i) = true)
    by reflexivity.
  assert (Hm : must_configure (snd i) f = true) by reflexivity.
  rewrite Encode_blocks by exact Ho. rewrite Hm.
  destruct (WebrtcGonkH264VideoEncoder.configure_failed env); reflexivity.
Qed.

(** X13: [InitEncode] on an encoder that is already configured does not ask for
    a reconfiguration: a picture with the geometry of the new settings is
    sent to the device without any [ConfigureDirect]. *)
Theorem InitEncode_keeps_configuration (idr : bool)
    (e : WebrtcGonkH264VideoEncoder.t)
    (aCodecSettings : WebrtcGonkH264VideoEncoder.VideoCodec)
    (created : bool) (f : WebrtcGonkH264VideoEncoder.VideoFrame)
    (aFrameTypes : option (list FrameType))
    (env : WebrtcGonkH264VideoEncoder.EncodeEnv) :
  WebrtcGonkH264VideoEncoder.mOMX e = true ->
  WebrtcGonkH264VideoEncoder.mOMXConfigured e = true ->
  WebrtcGonkH264VideoEncoder.mOMXReconfigure e = false ->
  (0 <= WebrtcGonkH264VideoEncoder.width aCodecSettings < 2 ^ 32)%Z ->
  (0 <= WebrtcGonkH264VideoEncoder.height aCodecSettings < 2 ^ 32)%Z ->
  WebrtcGonkH264VideoEncoder.frame_width f
  = WebrtcGonkH264VideoEncoder.width aCodecSettings ->
  WebrtcGonkH264VideoEncoder.frame_height f
  = WebrtcGonkH264VideoEncoder.height aCodecSettings ->
  let i := WebrtcGonkH264VideoEncoder.InitEncode e aCodecSettings created
             true in
  fst i = WEBRTC_VIDEO_CODEC_OK
  /\ filter is_ConfigureDirect
       (snd (WebrtcGonkH264VideoEncoder.Encode idr (snd i) f aFrameTypes
               env))
     = [].
Proof.
  intros Ho Hc Hr Hw Hh Hfw Hfh i.
  assert (Hi : i = (WEBRTC_VIDEO_CODEC_OK, snd i)).
  { unfold i, WebrtcGonkH264VideoEncoder.InitEncode. rewrite Ho.
    reflexivity. }
  split; [now rewrite Hi|].
  assert (Ho' : WebrtcGonkH264VideoEncoder.mOMX (snd i) = true).
  { unfold i, WebrtcGonkH264VideoEncoder.InitEncode. rewrite Ho.
    reflexivity. }
  assert (Hm : must_configure (snd i) f = false).
  { unfold must_configure, same_geometry, i,
      WebrtcGonkH264VideoEncoder.InitEncode.
    rewrite Ho. cbn. rewrite Hc, Hr, Hfw, Hfh.
    rewrite !uint32_small, !Z.eqb_refl by lia.
    destruct (Z.ltb_spec (WebrtcGonkH264VideoEncoder.width aCodecSettings) 0);
      [lia|].
    destruct (Z.ltb_spec (WebrtcGonkH264VideoEncoder.height aCodecSettings) 0);
      [lia|].
    reflexivity. }
  assert (Hcf : must_configure (snd i) f
                && WebrtcGonkH264VideoEncoder.configure_failed env = false)
    by now rewrite Hm.
  destruct (Encode_result idr (snd i) f aFrameTypes env Ho' Hcf)
    as [_ [[ic [Hcalls [Hic _]]] _]].
  rewrite Hcalls, Hm, !filter_app.
  destruct Hic as [->| ->]; reflexivity.
Qed.

(** ** SetRates across calls *)

Section SetRatesFacts.

Import WebrtcGonkH264VideoEncoder.

Lemma SetRates_frame_rate_stable (test : bool) (c r : Z) :
  SetRates_frame_rate test (fst (SetRates_frame_rate test c r)) r
  = (fst (SetRates_frame_rate test c r), false).
Proof.
  destruct test.
  - unfold SetRates_frame_rate.
    destruct (Z.eqb_spec r c) as [->|Hne]; cbn [negb fst].
    + now rewrite Z.eqb_refl.
    + now rewrite Z.eqb_refl.
  - rewrite !SetRates_frame_rate_unfold.
    destruct ((c <? r) || (r <? c / 2))%Z eqn:E; cbn [fst].
    + set (rate := Z.max _ r).
      destruct ((rate <? r) || (r <? rate / 2))%Z; [|reflexivity].
      now rewrite Z.eqb_refl.
    + rewrite E. reflexivity.
Qed.

(** X14: A second [SetRates] with the same rates leaves the encoder exactly as
    the first one did, in both builds and whatever the device answers: the
    frame rate it picked is stable and no further reconfiguration is asked
    for. *)
Theorem SetRates_twice (test : bool) (e : t) (aBitRateKbps aFrameRate : Z)
    (failed1 failed2 : bool) :
  let e1 := snd (fst (SetRates test e aBitRateKbps aFrameRate failed1)) in
  snd (fst (SetRates test e1 aBitRateKbps aFrameRate failed2)) = e1.
Proof.
  unfold SetRates. destruct (mOMX e) eqn:Ho; cbn [negb fst snd].
  - pose proof (SetRates_frame_rate_stable test (mFrameRate e) aFrameRate)
      as Hs.
    destruct (SetRates_frame_rate test (mFrameRate e) aFrameRate)
      as [rate rc].
    cbn [fst snd mOMX mFrameRate negb] in *.
    rewrite Hs. cbn. reflexivity.
  - rewrite Ho. reflexivity.
Qed.


Lemma bitrate_change_needs_IDR_after_a_second (B B0 T : Z) :
  B <> B0 -> (1000 <= T)%Z -> bitrate_change_needs_IDR B B0 T = true.
Proof.
  intros Hne HT. unfold bitrate_change_needs_IDR.
  destruct (Z.lt_ge_cases B B0) as [Hlt|Hge].
  - replace ((1000 <=? T) && (B <? B0))%Z with true.
    + now rewrite !orb_true_r.
    + symmetry. apply andb_true_iff. split; [apply Z.leb_le|apply Z.ltb_lt];
        lia.
  - replace ((1000 <=? T) && (B0 <? B))%Z with true.
    + now rewrite !orb_true_r.
    + symmetry. apply andb_true_iff. split; [apply Z.leb_le|apply Z.ltb_lt];
        lia.
Qed.

Lemma Encode_geometry_same (e : t) (f : VideoFrame) :
  same_geometry e f = true -> Encode_geometry e f = e.
Proof.
  unfold same_geometry, Encode_geometry. intros H.
  apply andb_true_iff in H. destruct H as [H H4].
  apply andb_true_iff in H. destruct H as [H H3].
  apply andb_true_iff in H. destruct H as [H1 H2].
  apply negb_true_iff in H1. apply negb_true_iff in H3.
  rewrite H1, H2, H3, H4. reflexivity.
Qed.

(** X16: With the bitrate policy compiled in, once a second has passed since the
    last IDR, the first [Encode] without a keyframe request after a
    [SetRates] to a bitrate other than the one at the last IDR restarts the
    keyframe budget at the new bitrate: when no configuration is due it
    requests an IDR right before the picture, and when one is due it
    configures the device instead and requests no IDR. *)
Theorem SetRates_then_Encode_restarts_budget (test : bool) (e : t)
    (aBitRateKbps aFrameRate : Z) (set_bitrate_failed : bool)
    (f : VideoFrame) (aFrameTypes : option (list FrameType))
    (env : EncodeEnv) (last : Z) :
  mOMX e = true ->
  mLastIDRTime e = Some last -> (1000 <= now_keyframe env - last)%Z ->
  aBitRateKbps <> mBitRateAtLastIDR e ->
  key_frame_requested aFrameTypes = false ->
  let e1 := snd (fst (SetRates test e aBitRateKbps aFrameRate
                        set_bitrate_failed)) in
  let r := Encode true e1 f aFrameTypes env in
  let picture := OMXEncode (frame_width f) (frame_height f)
                   (Z.quot (unwrapped env * 1000) 90) in
  (must_configure e1 f = false ->
   snd r = [RequestIDRFrame; picture]
   /\ mBitRateAtLastIDR (snd (fst r)) = aBitRateKbps
   /\ mLastIDRTime (snd (fst r)) = Some (now_keyframe env))
  /\ (must_configure e1 f = true -> configure_failed env = false ->
      snd r = [configure_call e1 f; picture]
      /\ mBitRateAtLastIDR (snd (fst r)) = aBitRateKbps
      /\ mLastIDRTime (snd (fst r)) = Some (now_configured env)).
Proof.
  intros Ho Hl HT Hne Hk e1 r picture.
  assert (H1 : mOMX e1 = true /\ mBitRateKbps e1 = aBitRateKbps
               /\ mBitRateAtLastIDR e1 = mBitRateAtLastIDR e
               /\ mLastIDRTime e1 = Some last).
  { unfold e1, SetRates. rewrite Ho. cbn [negb].
    destruct (SetRates_frame_rate _ _ _). cbn. auto. }
  destruct H1 as [Ho1 [Hb [Hb0 Hl1]]]. clearbody e1.
  unfold r, picture. rewrite Encode_blocks by exact Ho1.
  split.
  - intros Hm. rewrite Hm. cbn [andb]. cbv zeta.
    assert (Hg : Encode_geometry e1 f = e1).
    { apply Encode_geometry_same. unfold must_configure in Hm.
      apply orb_false_iff in Hm. destruct Hm as [_ Hs].
      now apply negb_false_iff in Hs. }
    rewrite Hg.
    assert (Hkey : Encode_keyframe true e1 aFrameTypes (now_keyframe env)
                   = (with_IDR_state e1 (Some (now_keyframe env))
                        aBitRateKbps,
                      [RequestIDRFrame])).
    { unfold Encode_keyframe. rewrite Hk, Hb, Hb0, Hl1. cbn [andb].
      apply Z.eqb_neq in Hne. rewrite Hne. cbn [negb].
      apply Z.eqb_neq in Hne.
      now rewrite bitrate_change_needs_IDR_after_a_second by assumption. }
    rewrite Hkey. cbn [fst snd].
    destruct (Encode_submit_fields
                (with_IDR_state e1 (Some (now_keyframe env)) aBitRateKbps)
                f env)
      as [[_ [_ [_ [_ [_ [_ [S7 [S8 _]]]]]]]] [Sc _]].
    rewrite Sc, S7, S8. cbn. auto.
  - intros Hm Hcf. rewrite Hm, Hcf. cbn [andb]. cbv zeta.
    destruct (Encode_geometry_fields e1 f)
      as [_ [_ [_ [_ [_ [G6 _]]]]]].
    set (e2 := with_IDR_state
                 (with_configuration (Encode_geometry e1 f) true false)
                 (Some (now_configured env)) (mBitRateKbps e1)).
    assert (Hkey : Encode_keyframe true e2 aFrameTypes (now_keyframe env)
                   = (e2, [])).
    { unfold Encode_keyframe. rewrite Hk. unfold e2.
      cbn [with_IDR_state with_configuration mBitRateKbps mBitRateAtLastIDR].
      rewrite G6, Z.eqb_refl. reflexivity. }
    rewrite Hkey. cbn [fst snd].
    destruct (Encode_submit_fields e2 f env)
      as [[_ [_ [_ [_ [_ [_ [S7 [S8 _]]]]]]]] [Sc _]].
    rewrite Sc, S7, S8. unfold e2. cbn. auto.
Qed.

End SetRatesFacts.

(** ** The decoder across calls *)

Section DecoderRuns.

Import WebrtcGonkH264VideoDecoder.

Variable MakeAVCCodecSpecificData : list Z -> option (list Z).

(** X17: [Decode] returns WEBRTC_VIDEO_CODEC_OK only when the access unit was
    the last submission of the call and the device took it; the
    configuration has then been submitted, and whatever was submitted
    before the access unit in this call was a configuration record. *)
Theorem Decode_OK (d : t) (aInputImage : EncodedImage) (aRenderTimeMs : Z)
    (env : DecodeEnv) :
  let r := Decode MakeAVCCodecSpecificData d aInputImage aRenderTimeMs env in
  fst (fst r) = WEBRTC_VIDEO_CODEC_OK ->
  mCodecConfigSubmitted (snd (fst r)) = true
  /\ data_accepted env = true
  /\ _buffer aInputImage <> []
  /\ exists before,
       snd r = before ++ [ {| image := aInputImage; isCodecConfig := false;
                              renderTimeMs := aRenderTimeMs |} ]
       /\ Forall (fun c => isCodecConfig c = true) before.
Proof.
  unfold Decode.
  destruct (_buffer aInputImage) as [|b bs] eqn:E; cbn [length Nat.eqb];
    [cbn; discriminate|].
  destruct (mCodecConfigSubmitted d) eqn:Hf; cbn [negb].
  - destruct (data_accepted env); cbn [fst snd]; [|discriminate].
    intros _. split; [exact Hf|]. split; [reflexivity|].
    split; [discriminate|].
    exists nil. split; [reflexivity|constructor].
  - destruct (MakeAVCCodecSpecificData (b :: bs)); [|cbn; discriminate].
    destruct (config_accepted env); cbn [negb]; [|cbn; discriminate].
    destruct (data_accepted env); cbn [fst snd]; [|discriminate].
    intros _. split; [reflexivity|]. split; [reflexivity|].
    split; [discriminate|].
    eexists (cons _ nil). split; [reflexivity|]. repeat constructor.
Qed.

Lemma decoder_log_submitted (calls : list DecoderCall) :
  forall d : t,
    mCodecConfigSubmitted d = true ->
    mCodecConfigSubmitted (decoder_run MakeAVCCodecSpecificData calls d)
    = true
    /\ Forall (fun c => isCodecConfig c = false)
         (decoder_log MakeAVCCodecSpecificData calls d).
Proof.
  unfold decoder_run.
  induction calls as [|c calls IH]; intros d Hf; [split; [exact Hf|constructor]|].
  cbn [fold_left decoder_log].
  assert (H : mCodecConfigSubmitted (decoder_call MakeAVCCodecSpecificData d c)
              = true
              /\ Forall (fun c => isCodecConfig c = false)
                   (snd (Decode MakeAVCCodecSpecificData d (call_image c)
                           (call_render_time c) (call_env c)))).
  { unfold decoder_call, Decode.
    destruct (length _ =? 0); [cbn; split; [exact Hf|constructor]|].
    rewrite Hf. cbn. split; [exact Hf|]. repeat constructor. }
  destruct H as [H1 H2]. destruct (IH _ H1) as [I1 I2].
  split; [exact I1|]. apply Forall_app. split; assumption.
Qed.

Lemma Decode_unsubmitted (d : t) (c : DecoderCall) :
  mCodecConfigSubmitted d = false ->
  let log := snd (Decode MakeAVCCodecSpecificData d (call_image c)
                    (call_render_time c) (call_env c)) in
  let d' := decoder_call MakeAVCCodecSpecificData d c in
  (log = [] /\ d' = d)
  \/ (exists config, log = [config]
                     /\ isCodecConfig config = true /\ d' = d)
  \/ (exists config data,
        log = [config; data]
        /\ isCodecConfig config = true /\ isCodecConfig data = false
        /\ mCodecConfigSubmitted d' = true).
Proof.
  intros Hf. unfold decoder_call, Decode.
  destruct (length (_buffer (call_image c)) =? 0); [left; split; reflexivity|].
  rewrite Hf. cbn [negb].
  destruct (MakeAVCCodecSpecificData (_buffer (call_image c)));
    [|left; split; reflexivity].
  destruct (config_accepted (call_env c)); cbn [negb].
  - right. right. eexists. eexists. cbn. repeat split.
  - right. left. eexists. cbn. repeat split.
Qed.

(** X18: Over any sequence of [Decode] calls on a decoder that has not submitted
    a configuration, every configuration submission comes before every data
    submission: the device never sees an access unit before a configuration
    record, and sees none at all while the flag is still unset. *)
Theorem decoder_log_config_first (calls : list DecoderCall) :
  forall d : t,
    mCodecConfigSubmitted d = false ->
    exists configs datas,
      decoder_log MakeAVCCodecSpecificData calls d = configs ++ datas
      /\ Forall (fun c => isCodecConfig c = true) configs
      /\ Forall (fun c => isCodecConfig c = false) datas
      /\ (datas <> [] -> configs <> [])
      /\ (mCodecConfigSubmitted
            (decoder_run MakeAVCCodecSpecificData calls d) = false ->
          datas = []).
Proof.
  unfold decoder_run.
  induction calls as [|c calls IH]; intros d Hf.
  - exists nil, nil. repeat split; auto.
  - cbn [decoder_log fold_left].
    destruct (Decode_unsubmitted d c Hf)
      as [[Hl Hd]|[[cfg [Hl [Hc Hd]]]|[cfg [data [Hl [Hc [Hda Hd]]]]]]];
      rewrite Hl.
    + rewrite Hd. cbn [app]. apply IH. exact Hf.
    + rewrite Hd. destruct (IH d Hf) as [cs [ds [I1 [I2 [I3 [I4 I5]]]]]].
      exists (cfg :: cs), ds. rewrite I1. split; [reflexivity|].
      split; [constructor; assumption|].
      split; [exact I3|]. split; [discriminate|exact I5].
    + destruct (decoder_log_submitted calls _ Hd) as [L1 L2].
      unfold decoder_run in L1.
      exists (cons cfg nil),
        (data :: decoder_log MakeAVCCodecSpecificData calls
                   (decoder_call MakeAVCCodecSpecificData d c)).
      split; [reflexivity|].
      split; [repeat constructor; assumption|].
      split; [constructor; assumption|].
      split; [discriminate|].
      intros H. rewrite L1 in H. discriminate H.
Qed.

End DecoderRuns.

(** ** Initialisation and the reservation *)

(** From the constructor, [InitEncode] succeeds exactly when an encoder
    could be created and the hardware was granted, and the encoder then
    holds the hardware exactly when it has a device; [InitDecode] succeeds
    exactly when the hardware was granted and the configuration went
    through, but holds the hardware whenever it was granted, also after a
    failed configuration. *)
Theorem Init_reservation
    (aCodecSettings : WebrtcGonkH264VideoEncoder.VideoCodec)
    (created granted configured : bool) :
  let ie := WebrtcGonkH264VideoEncoder.InitEncode
              WebrtcGonkH264VideoEncoder.new aCodecSettings created granted in
  let id := WebrtcGonkH264VideoDecoder.InitDecode
              WebrtcGonkH264VideoDecoder.new granted configured in
  (fst ie = WEBRTC_VIDEO_CODEC_OK <-> created && granted = true)
  /\ WebrtcGonkH264VideoEncoder.mOMX (snd ie) = created && granted
  /\ held (WebrtcGonkH264VideoEncoder.mReservation (snd ie))
     = created && granted
  /\ (fst id = WEBRTC_VIDEO_CODEC_OK <-> granted && configured = true)
  /\ WebrtcGonkH264VideoDecoder.mDecoder (snd id) = granted && configured
  /\ held (WebrtcGonkH264VideoDecoder.mReservation (snd id)) = granted.
Proof.
  destruct created, granted, configured; cbn; repeat split;
    intros; congruence.
Qed.

(** ** The further properties on sample inputs *)

Lemma Encode_configures_once_witness :
  let e := sample_encoder 30 500 500 None in
  WebrtcGonkH264VideoEncoder.mOMX e = true
  /\ must_configure e (sample_picture 1280 720) = true
  /\ hd_error (snd (WebrtcGonkH264VideoEncoder.Encode false e
                      (sample_picture 1280 720) None
                      (sample_env false true)))
     = Some (configure_call e (sample_picture 1280 720)).
Proof.
  split; [reflexivity|]. split; [reflexivity|].
  destruct (Encode_configures_once false (sample_encoder 30 500 500 None)
              (sample_picture 1280 720) None (sample_env false true)
              eq_refl) as [_ [H _]].
  exact (H eq_refl).
Defined.

Lemma Encode_configuration_failure_witness :
  let e := sample_encoder 30 500 500 None in
  WebrtcGonkH264VideoEncoder.mOMX e = true
  /\ must_configure e (sample_picture 1280 720) = true
  /\ fst (fst (WebrtcGonkH264VideoEncoder.Encode false e
                 (sample_picture 1280 720) None (sample_env true true)))
     = WEBRTC_VIDEO_CODEC_ERROR.
Proof.
  split; [reflexivity|]. split; [reflexivity|].
  exact (proj1 (Encode_configuration_failure false
                  (sample_encoder 30 500 500 None)
                  (sample_picture 1280 720) (sample_picture 1280 720)
                  None None (sample_env true true) (sample_env false true)
                  eq_refl eq_refl eq_refl)).
Defined.

Lemma Encode_queues_frame_witness :
  let e := sample_encoder 30 500 500 None in
  let r := WebrtcGonkH264VideoEncoder.Encode false e (sample_picture 640 480)
             None (sample_env false true) in
  WebrtcGonkH264VideoEncoder.mOMX e = true
  /\ fst (fst r) = WEBRTC_VIDEO_CODEC_OK
  /\ queued_frames (snd (fst r))
     = [Build_EncodedFrame 640 480 90000 1000000 1000].
Proof.
  split; [reflexivity|]. split; [reflexivity|].
  destruct (Encode_queues_frame false (sample_encoder 30 500 500 None)
              (sample_picture 640 480) None (sample_env false true)
              eq_refl) as [H _].
  exact (proj1 (H eq_refl)).
Defined.

Lemma Encode_requests_IDR_witness :
  let e := sample_encoder 30 500 500 None in
  WebrtcGonkH264VideoEncoder.mOMX e = true
  /\ WebrtcGonkH264VideoEncoder.key_frame_requested (Some [kVideoFrameKey])
     = true
  /\ snd (WebrtcGonkH264VideoEncoder.Encode false e (sample_picture 640 480)
            (Some [kVideoFrameKey]) (sample_env false true))
     = [WebrtcGonkH264VideoEncoder.RequestIDRFrame;
        WebrtcGonkH264VideoEncoder.OMXEncode 640 480 1000000].
Proof.
  split; [reflexivity|]. split; [reflexivity|].
  destruct (Encode_requests_IDR false (sample_encoder 30 500 500 None)
              (sample_picture 640 480) (Some [kVideoFrameKey])
              (sample_env false true) eq_refl eq_refl) as [H _].
  exact (proj1 (H eq_refl)).
Defined.

Lemma encoder_run_keeps_drain_witness :
  let e := snd (fst (WebrtcGonkH264VideoEncoder.Encode false
                       (sample_encoder 30 500 500 None)
                       (sample_picture 640 480) None
                       (sample_env false true))) in
  let calls := [CallRegisterEncodeCompleteCallback false;
                CallEncode (sample_picture 640 480) None
                  (sample_env false true)] in
  exists d d' more,
    WebrtcGonkH264VideoEncoder.mOutputDrain e = Some d
    /\ WebrtcGonkH264VideoEncoder.mCallback (encoder_run false false calls e)
       = false
    /\ WebrtcGonkH264VideoEncoder.mOutputDrain
         (encoder_run false false calls e) = Some d'
    /\ EncOutputDrain.mCallback d' = true
    /\ EncOutputDrain.mInputFrames d'
       = EncOutputDrain.mInputFrames d ++ more.
Proof.
  eexists.
  destruct (encoder_run_keeps_drain false false
              [CallRegisterEncodeCompleteCallback false;
               CallEncode (sample_picture 640 480) None
                 (sample_env false true)]
              (snd (fst (WebrtcGonkH264VideoEncoder.Encode false
                           (sample_encoder 30 500 500 None)
                           (sample_picture 640 480) None
                           (sample_env false true))))
              _ eq_refl) as [d' [more [H1 [H2 [_ [_ H5]]]]]].
  exists d', more. split; [reflexivity|]. split; [reflexivity|].
  split; [exact H1|]. split; [exact H2 | exact H5].
Defined.

Lemma InitEncode_keeps_configuration_witness :
  let e := sample_encoder 30 500 500 None in
  let cs := {| WebrtcGonkH264VideoEncoder.width := 1280;
               WebrtcGonkH264VideoEncoder.height := 720;
               WebrtcGonkH264VideoEncoder.maxFramerate := 15;
               WebrtcGonkH264VideoEncoder.startBitrate := 900 |} in
  WebrtcGonkH264VideoEncoder.mOMXConfigured e = true
  /\ filter is_ConfigureDirect
       (snd (WebrtcGonkH264VideoEncoder.Encode false
               (snd (WebrtcGonkH264VideoEncoder.InitEncode e cs true true))
               (sample_picture 1280 720) None (sample_env false true)))
     = [].
Proof.
  split; [reflexivity|].
  exact (proj2 (InitEncode_keeps_configuration false
                  (sample_encoder 30 500 500 None)
                  {| WebrtcGonkH264VideoEncoder.width := 1280;
                     WebrtcGonkH264VideoEncoder.height := 720;
                     WebrtcGonkH264VideoEncoder.maxFramerate := 15;
                     WebrtcGonkH264VideoEncoder.startBitrate := 900 |}
                  true (sample_picture 1280 720) None (sample_env false true)
                  eq_refl eq_refl eq_refl
                  ltac:(cbn; lia) ltac:(cbn; lia)
                  eq_refl eq_refl)).
Defined.


Lemma SetRates_then_Encode_restarts_budget_witness :
  let e := sample_encoder 30 500 500 (Some 0%Z) in
  let e1 := snd (fst (WebrtcGonkH264VideoEncoder.SetRates false e 510 30
                        false)) in
  let e2 := snd (fst (WebrtcGonkH264VideoEncoder.SetRates false e 510 31
                        false)) in
  WebrtcGonkH264VideoEncoder.mOMX e = true
  /\ (1000 <= WebrtcGonkH264VideoEncoder.now_keyframe (sample_env false true)
              - 0)%Z
  /\ must_configure e1 (sample_picture 640 480) = false
  /\ snd (WebrtcGonkH264VideoEncoder.Encode true e1 (sample_picture 640 480)
            None (sample_env false true))
     = [WebrtcGonkH264VideoEncoder.RequestIDRFrame;
        WebrtcGonkH264VideoEncoder.OMXEncode 640 480 1000000]
  /\ must_configure e2 (sample_picture 640 480) = true
  /\ snd (WebrtcGonkH264VideoEncoder.Encode true e2 (sample_picture 640 480)
            None (sample_env false true))
     = [WebrtcGonkH264VideoEncoder.ConfigureDirect 640 480 31 510000;
        WebrtcGonkH264VideoEncoder.OMXEncode 640 480 1000000].
Proof.
  assert (HT : (1000 <= WebrtcGonkH264VideoEncoder.now_keyframe
                          (sample_env false true) - 0)%Z) by (cbn; lia).
  split; [reflexivity|]. split; [exact HT|]. split; [reflexivity|].
  split.
  - destruct (SetRates_then_Encode_restarts_budget false
                (sample_encoder 30 500 500 (Some 0%Z)) 510 30 false
                (sample_picture 640 480) None (sample_env false true) 0
                eq_refl eq_refl HT ltac:(cbn; lia) eq_refl) as [H _].
    exact (proj1 (H eq_refl)).
  - split; [reflexivity|].
    destruct (SetRates_then_Encode_restarts_budget false
                (sample_encoder 30 500 500 (Some 0%Z)) 510 31 false
                (sample_picture 640 480) None (sample_env false true) 0
                eq_refl eq_refl HT ltac:(cbn; lia) eq_refl) as [_ H].
    exact (proj1 (H eq_refl eq_refl)).
Defined.

Lemma Decode_OK_witness :
  let env := {| WebrtcGonkH264VideoDecoder.config_accepted := true;
                WebrtcGonkH264VideoDecoder.data_accepted := true |} in
  let r := WebrtcGonkH264VideoDecoder.Decode sample_extract sample_decoder
             (sample_image sample_sps_pps_idr) 0 env in
  fst (fst r) = WEBRTC_VIDEO_CODEC_OK
  /\ WebrtcGonkH264VideoDecoder.mCodecConfigSubmitted (snd (fst r)) = true.
Proof.
  split; [reflexivity|].
  exact (proj1 (Decode_OK sample_extract sample_decoder
                  (sample_image sample_sps_pps_idr) 0
                  {| WebrtcGonkH264VideoDecoder.config_accepted := true;
                     WebrtcGonkH264VideoDecoder.data_accepted := true |}
                  eq_refl)).
Defined.

Lemma decoder_log_config_first_witness :
  let accept := {| WebrtcGonkH264VideoDecoder.config_accepted := true;
                   WebrtcGonkH264VideoDecoder.data_accepted := true |} in
  let calls := [ {| call_image := sample_image sample_idr;
                    call_render_time := 0; call_env := accept |};
                 {| call_image := sample_image sample_sps_pps_idr;
                    call_render_time := 40; call_env := accept |};
                 {| call_image := sample_image sample_delta;
                    call_render_time := 80; call_env := accept |} ] in
  WebrtcGonkH264VideoDecoder.mCodecConfigSubmitted sample_decoder = false
  /\ map WebrtcGonkH264VideoDecoder.isCodecConfig
       (decoder_log sample_extract calls sample_decoder)
     = [true; false; false]
  /\ exists configs datas,
       decoder_log sample_extract calls sample_decoder = configs ++ datas
       /\ Forall (fun c => WebrtcGonkH264VideoDecoder.isCodecConfig c = true)
            configs
       /\ Forall (fun c => WebrtcGonkH264VideoDecoder.isCodecConfig c = false)
            datas.
Proof.
  split; [reflexivity|]. split; [reflexivity|].
  destruct (decoder_log_config_first sample_extract
              [ {| call_image := sample_image sample_idr;
                   call_render_time := 0;
                   call_env :=
                     {| WebrtcGonkH264VideoDecoder.config_accepted := true;
                        WebrtcGonkH264VideoDecoder.data_accepted := true |} |};
                {| call_image := sample_image sample_sps_pps_idr;
                   call_render_time := 40;
                   call_env :=
                     {| WebrtcGonkH264VideoDecoder.config_accepted := true;
                        WebrtcGonkH264VideoDecoder.data_accepted := true |} |};
                {| call_image := sample_image sample_delta;
                   call_render_time := 80;
                   call_env :=
                     {| WebrtcGonkH264VideoDecoder.config_accepted := true;
                        WebrtcGonkH264VideoDecoder.data_accepted := true |} |} ]
              sample_decoder eq_refl)
    as [configs [datas [H1 [H2 [H3 _]]]]].
  exists configs, datas. split; [exact H1|]. split; [exact H2 | exact H3].
Defined.

(** ** Timestamps *)

(** X19: The timestamp [Encode] hands to the device is the unwrapped 90 kHz RTP
    timestamp in microseconds, rounded down, and grows strictly with it:
    two pictures with different RTP timestamps never share a device
    timestamp, the key under which the drain looks the input frame up. *)
Theorem Encode_timestamps_increase
    (e1 e2 : WebrtcGonkH264VideoEncoder.t)
    (f1 f2 : WebrtcGonkH264VideoEncoder.VideoFrame)
    (env1 env2 : WebrtcGonkH264VideoEncoder.EncodeEnv) :
  (0 <= WebrtcGonkH264VideoEncoder.unwrapped env1
   < WebrtcGonkH264VideoEncoder.unwrapped env2)%Z ->
  exists t1 t2,
    snd (WebrtcGonkH264VideoEncoder.Encode_submit e1 f1 env1)
    = [WebrtcGonkH264VideoEncoder.OMXEncode
         (WebrtcGonkH264VideoEncoder.frame_width f1)
         (WebrtcGonkH264VideoEncoder.frame_height f1) t1]
    /\ snd (WebrtcGonkH264VideoEncoder.Encode_submit e2 f2 env2)
       = [WebrtcGonkH264VideoEncoder.OMXEncode
            (WebrtcGonkH264VideoEncoder.frame_width f2)
            (WebrtcGonkH264VideoEncoder.frame_height f2) t2]
    /\ (t1 < t2)%Z
    /\ (90 * t1 <= 1000 * WebrtcGonkH264VideoEncoder.unwrapped env1
        < 90 * (t1 + 1))%Z.
Proof.
  intros Hu.
  destruct (Encode_submit_fields e1 f1 env1) as [_ [H1 _]].
  destruct (Encode_submit_fields e2 f2 env2) as [_ [H2 _]].
  eexists. eexists. split; [exact H1|]. split; [exact H2|].
  rewrite !Z.quot_div_nonneg by lia.
  pose proof (Z.div_mod (WebrtcGonkH264VideoEncoder.unwrapped env1 * 1000) 90
                ltac:(lia)) as D1.
  pose proof (Z.mod_pos_bound
                (WebrtcGonkH264VideoEncoder.unwrapped env1 * 1000) 90
                ltac:(lia)) as M1.
  pose proof (Z.div_mod (WebrtcGonkH264VideoEncoder.unwrapped env2 * 1000) 90
                ltac:(lia)) as D2.
  pose proof (Z.mod_pos_bound
                (WebrtcGonkH264VideoEncoder.unwrapped env2 * 1000) 90
                ltac:(lia)) as M2.
  lia.
Qed.

Lemma Encode_timestamps_increase_witness :
  let env1 := sample_env false true in
  let env2 := {| WebrtcGonkH264VideoEncoder.configure_failed := false;
                 WebrtcGonkH264VideoEncoder.now_configured := 2000;
                 WebrtcGonkH264VideoEncoder.now_keyframe := 2000;
                 WebrtcGonkH264VideoEncoder.unwrapped := 90001;
                 WebrtcGonkH264VideoEncoder.encode_ok := true |} in
  (0 <= WebrtcGonkH264VideoEncoder.unwrapped env1
   < WebrtcGonkH264VideoEncoder.unwrapped env2)%Z
  /\ exists t1 t2,
       snd (WebrtcGonkH264VideoEncoder.Encode_submit
              (sample_encoder 30 500 500 None) (sample_picture 640 480) env1)
       = [WebrtcGonkH264VideoEncoder.OMXEncode 640 480 t1]
       /\ snd (WebrtcGonkH264VideoEncoder.Encode_submit
                 (sample_encoder 30 500 500 None) (sample_picture 640 480)
                 env2)
          = [WebrtcGonkH264VideoEncoder.OMXEncode 640 480 t2]
       /\ (t1 < t2)%Z.
Proof.
  assert (H : (0 <= WebrtcGonkH264VideoEncoder.unwrapped
                      (sample_env false true)
               < 90001)%Z) by (cbn; lia).
  split; [exact H|].
  destruct (Encode_timestamps_increase
              (sample_encoder 30 500 500 None)
              (sample_encoder 30 500 500 None)
              (sample_picture 640 480) (sample_picture 640 480)
              (sample_env false true)
              {| WebrtcGonkH264VideoEncoder.configure_failed := false;
                 WebrtcGonkH264VideoEncoder.now_configured := 2000;
                 WebrtcGonkH264VideoEncoder.now_keyframe := 2000;
                 WebrtcGonkH264VideoEncoder.unwrapped := 90001;
                 WebrtcGonkH264VideoEncoder.encode_ok := true |} H)
    as [t1 [t2 [H1 [H2 [H3 _]]]]].
  exists t1, t2. split; [exact H1|]. split; [exact H2 | exact H3].
Defined.
